(** * The prompt collector: analysis engine, storage manager, insights generator

    A shallow embedding of [src/analysis/engine.ts], of the storage manager
    ([StorageManager], over the schema of [createTables]), of the detectors
    of [src/analysis/insights.ts] and of the test-prompt route of the
    dashboard server.

    Conventions of the embedding.
    - In the analysis engine, in the storage manager and in the counting
      detectors a JavaScript [number] is an exact rational ([Q]): their
      numbers are counts, ratios of counts and multiples of 0.1 that are
      rounded again before use; the one division whose divisor can be zero
      ([words.length / sentences.length]) is computed in [jsnum], which adds
      [+Infinity] and [NaN].
    - The quality scores that the quality-trend detector averages are IEEE
      754 binary64 numbers ([JsDouble.double]), added and divided with
      round-to-nearest-even as JavaScript does.
    - A JavaScript string is a [string] of 8-bit characters, read as the code
      units U+0000..U+00FF; [\s], [trim] and [toLowerCase] are the
      restrictions of the JavaScript ones to that range.
    - An optional field ([f?: T]) of an argument of the storage manager is
      an [option]; [None] is [undefined]. An optional field of a stored
      record that the detectors read is a [JsValue.field]: [undefined],
      [null] (what [mapPromptRow] copies from a [NULL] column) or a value.
    - An [async] method of the storage manager is a function to an
      [outcome]: the promise is resolved with a value or rejected with an
      error. [analyzePrompt] has no statement that throws and is a plain
      function. *)

From Stdlib Require Import ZArith QArith Qround Qminmax Lia Lqa.
From Stdlib Require Import List Bool Ascii String DecimalString.
From Stdlib Require Import Permutation Sorted.
From Corelib Require Import SpecFloat.
From stdpp Require Import gmap strings.
Import ListNotations.

Local Open Scope string_scope.
Local Open Scope list_scope.
Local Open Scope nat_scope.

(** ** JavaScript strings *)

Module JsString.

Definition newline : ascii := "010"%char.

(** The character class [\s], for code units below 256: TAB, LF, VT, FF,
    CR, SPACE and NO-BREAK SPACE. *)
Definition is_space (c : ascii) : bool :=
  let n := nat_of_ascii c in
  ((9 <=? n) && (n <=? 13)) || (n =? 32) || (n =? 160).

(** The class [[.!?]]. *)
Definition is_sentence_end (c : ascii) : bool :=
  let n := nat_of_ascii c in
  (n =? 46) || (n =? 33) || (n =? 63).

(** The class [[!?]]. *)
Definition is_bang_or_question (c : ascii) : bool :=
  let n := nat_of_ascii c in
  (n =? 33) || (n =? 63).

(** The class [[A-Z]]. *)
Definition is_upper (c : ascii) : bool :=
  let n := nat_of_ascii c in
  (65 <=? n) && (n <=? 90).

(** [String.prototype.toLowerCase], one code unit at a time: A-Z, and the
    Latin-1 capitals U+00C0..U+00DE except the multiplication sign. *)
Definition lower_char (c : ascii) : ascii :=
  let n := nat_of_ascii c in
  if ((65 <=? n) && (n <=? 90))
     || ((192 <=? n) && (n <=? 222) && negb (n =? 215))
  then ascii_of_nat (n + 32) else c.

Fixpoint toLowerCase (s : string) : string :=
  match s with
  | EmptyString => EmptyString
  | String c s' => String (lower_char c) (toLowerCase s')
  end.

Fixpoint startsWith (s sub : string) : bool :=
  match sub, s with
  | EmptyString, _ => true
  | String _ _, EmptyString => false
  | String b sub', String a s' => Ascii.eqb a b && startsWith s' sub'
  end.

(** [s.includes(sub)] *)
Fixpoint includes (s sub : string) : bool :=
  startsWith s sub ||
  match s with
  | EmptyString => false
  | String _ s' => includes s' sub
  end.

(** [s.split(/[sep]+/)]: the pieces between the maximal runs of separator
    characters. [in_sep] says that the character before [s] belongs to a
    run that has already closed a piece. The result is never empty: a
    string without separator is its own single piece, and so is [""]. *)
Fixpoint split_runs (sep : ascii -> bool) (in_sep : bool) (s : string)
  : list string :=
  match s with
  | EmptyString => [EmptyString]
  | String c s' =>
      if sep c then
        if in_sep then split_runs sep true s'
        else EmptyString :: split_runs sep true s'
      else
        match split_runs sep false s' with
        | piece :: pieces => String c piece :: pieces
        | [] => [String c EmptyString]
        end
  end.

Definition split (sep : ascii -> bool) (s : string) : list string :=
  split_runs sep false s.

Fixpoint trimStart (s : string) : string :=
  match s with
  | EmptyString => EmptyString
  | String c s' => if is_space c then trimStart s' else s
  end.

(** [trimEnd]: a character is kept when it is not a space or when something
    is kept after it. *)
Fixpoint trimEnd (s : string) : string :=
  match s with
  | EmptyString => EmptyString
  | String c s' =>
      match trimEnd s' with
      | EmptyString => if is_space c then EmptyString else String c EmptyString
      | rest => String c rest
      end
  end.

Definition trim (s : string) : string := trimEnd (trimStart s).

(** [(s.match(/[cls]{k,}/g) || []).length]: the regular expression is
    greedy and the matches do not overlap, so each maximal run of at least
    [k] characters of the class is one match. [run] is the length of the
    run that ends just before [s]. *)
Fixpoint count_runs (cls : ascii -> bool) (k run : nat) (s : string) : nat :=
  match s with
  | EmptyString => if k <=? run then 1 else 0
  | String c s' =>
      if cls c then count_runs cls k (S run) s'
      else (if k <=? run then 1 else 0) + count_runs cls k 0 s'
  end.

Definition count_matches (cls : ascii -> bool) (k : nat) (s : string) : nat :=
  count_runs cls k 0 s.

End JsString.

(** ** JavaScript numbers *)

Module JsNumber.

(** The value of a division of two array lengths. *)
Inductive jsnum : Type :=
| Finite (q : Q)
| PosInfinity
| NaN.

(** [a / b] for two lengths: [n / 0] is [+Infinity] for [n > 0], and
    [0 / 0] is [NaN]. *)
Definition div_lengths (a b : nat) : jsnum :=
  match b, a with
  | O, O => NaN
  | O, S _ => PosInfinity
  | S _, _ => Finite (inject_Z (Z.of_nat a) / inject_Z (Z.of_nat b))
  end.

Definition Qlt_bool (x y : Q) : bool := negb (Qle_bool y x).

(** [x > y]; a comparison with [NaN] is false. *)
Definition gt (x : jsnum) (y : Q) : bool :=
  match x with
  | Finite q => Qlt_bool y q
  | PosInfinity => true
  | NaN => false
  end.

(** [Math.round]: the nearest integer, a tie going up. *)
Definition round (x : Q) : Z := Qfloor (x + (1 # 2)).

Definition of_nat (n : nat) : Q := inject_Z (Z.of_nat n).

End JsNumber.

(** ** JavaScript numbers as IEEE 754 doubles *)

Module JsDouble.

(** binary64: 53 bits of precision, exponents up to 1024; every operation
    rounds to nearest, ties to even. *)
Definition prec : Z := 53.
Definition emax : Z := 1024.

Definition double : Type := spec_float.

Definition zero : double := S754_zero false.
Definition nan : double := S754_nan.

Definition add (x y : double) : double := SFadd prec emax x y.
Definition sub (x y : double) : double := SFsub prec emax x y.
Definition div (x y : double) : double := SFdiv prec emax x y.

(** [x < y] and [x <= y]; both are false when an operand is [NaN]. *)
Definition ltb (x y : double) : bool := SFltb x y.
Definition leb (x y : double) : bool := SFleb x y.

(** The double nearest to an integer; exact up to 2^53. *)
Definition of_Z (z : Z) : double := binary_normalize prec emax z 0 false.
Definition of_nat (n : nat) : double := of_Z (Z.of_nat n).

(** The value of the decimal literal [n / d], for [d] a power of ten in
    the range where both are exact: the double nearest to the fraction. *)
Definition decimal (n d : Z) : double := div (of_Z n) (of_Z d).

(** The literal [0.5] *)
Definition half : double := decimal 5 10.

(** The rational that a finite double stands for. *)
Definition exact (x : double) : Q :=
  match x with
  | S754_finite s m e =>
      let n := if s then Z.neg m else Z.pos m in
      match e with
      | Z0 => inject_Z n
      | Z.pos p => inject_Z (n * Z.pow_pos 2 p)
      | Z.neg p => n # Pos.pow 2 p
      end
  | _ => 0%Q
  end.

End JsDouble.

(** ** Optional fields of stored records *)

Module JsValue.

(** What a field [f?: T] of a record read from the database can hold:
    nothing at all, the [null] of a [NULL] column, or a value. *)
Inductive field (A : Type) : Type :=
| undefined
| null
| value (a : A).
Arguments undefined {A}.
Arguments null {A}.
Arguments value {A} a.

End JsValue.

(** ** [src/analysis/engine.ts] *)

Module Engine.
Import JsString JsNumber.

Inductive Complexity : Type := simple | moderate | complex.
Inductive Severity : Type := low | medium | high.
Inductive IssueType : Type :=
  ambiguity | missing_context | too_broad | bias | inefficiency.

Record Issue : Type := {
  type : IssueType;
  description : string;
  severity : Severity
}.

Record Structure : Type := {
  hasContext : bool;
  hasExamples : bool;
  hasConstraints : bool;
  hasExpectedOutput : bool;
  clarityScore : Q
}.

Record PromptAnalysis : Type := {
  qualityScore : Q;
  complexity : Complexity;
  structure : Structure;
  issues : list Issue;
  suggestedTechnique : string;
  techniqueRationale : string
}.

(** [indicators.some(indicator => lowerPrompt.includes(indicator))] *)
Definition some_included (indicators : list string) (prompt : string) : bool :=
  let lowerPrompt := toLowerCase prompt in
  existsb (fun indicator => includes lowerPrompt indicator) indicators.

Definition contextIndicators : list string :=
  [ "context"; "background"; "situation"; "scenario"; "given that";
    "assuming"; "consider"; "in the context of"; "for this project";
    "working on"; "building"; "creating" ].

Definition detectContext (prompt : string) : bool :=
  some_included contextIndicators prompt.

Definition exampleIndicators : list string :=
  [ "example"; "for instance"; "such as"; "like this"; "here's an example";
    "e.g."; "for example"; "including"; "sample"; "demo" ].

Definition detectExamples (prompt : string) : bool :=
  some_included exampleIndicators prompt.

Definition constraintIndicators : list string :=
  [ "must"; "should"; "cannot"; "don't"; "avoid"; "only"; "exactly";
    "within"; "limit"; "constraint"; "requirement"; "ensure"; "make sure" ].

Definition detectConstraints (prompt : string) : bool :=
  some_included constraintIndicators prompt.

Definition outputIndicators : list string :=
  [ "output"; "result"; "response"; "format"; "structure"; "return";
    "provide"; "give me"; "i want"; "i need"; "show me"; "list";
    "explain"; "describe"; "write"; "create"; "generate" ].

Definition detectExpectedOutput (prompt : string) : bool :=
  some_included outputIndicators prompt.

(** [words.length / sentences.length] *)
Definition avgWordsPerSentence (words sentences : list string) : jsnum :=
  div_lengths (length words) (length sentences).

Definition calculateClarityScore
  (prompt : string) (words sentences : list string) : Q :=
  let score : Q := 10%Q in
  let score := if length words <? 10 then (score - 2)%Q else score in
  let score := if 500 <? length words then (score - 1)%Q else score in
  let score :=
    if gt (avgWordsPerSentence words sentences) 30%Q
    then (score - 1)%Q else score in
  let score :=
    if includes prompt (String newline EmptyString)
       || includes prompt "1." || includes prompt "-"
    then (score + 1)%Q else score in
  let excessivePunctuation := count_matches is_bang_or_question 2 prompt in
  let excessiveCaps := count_matches is_upper 5 prompt in
  let score :=
    (score - of_nat (excessivePunctuation + excessiveCaps) * (1 # 2))%Q in
  Qmax 0 (Qmin 10 score).

(** [prompt.split(/\s+/)] *)
Definition words_of (prompt : string) : list string :=
  split is_space prompt.

(** [prompt.split(/[.!?]+/).filter(s => s.trim().length > 0)] *)
Definition sentences_of (prompt : string) : list string :=
  List.filter (fun s => 0 <? String.length (trim s))
         (split is_sentence_end prompt).

Definition analyzeStructure (prompt : string) : Structure :=
  let words := words_of prompt in
  let sentences := sentences_of prompt in
  {| hasContext := detectContext prompt;
     hasExamples := detectExamples prompt;
     hasConstraints := detectConstraints prompt;
     hasExpectedOutput := detectExpectedOutput prompt;
     clarityScore := calculateClarityScore prompt words sentences |}.

Definition ambiguousWords : list string :=
  [ "something"; "anything"; "stuff"; "things"; "some"; "any";
    "maybe"; "perhaps"; "might"; "could be"; "sort of"; "kind of" ].

Definition detectAmbiguity (prompt : string) : bool :=
  some_included ambiguousWords prompt.

Definition biasIndicators : list string :=
  [ "obviously"; "clearly"; "everyone knows"; "it's common sense";
    "normal people"; "typical"; "standard" ].

Definition detectPotentialBias (prompt : string) : bool :=
  some_included biasIndicators prompt.

(** [issues.push(...)] under a guard. *)
Definition push_if (b : bool) (i : Issue) (issues : list Issue) : list Issue :=
  if b then issues ++ [i] else issues.

Definition detectIssues (prompt : string) (structure : Structure) : list Issue :=
  let issues : list Issue := [] in
  let issues :=
    push_if (negb (hasContext structure) && (100 <? String.length prompt))
      {| type := missing_context;
         description := "Prompt lacks sufficient context for complex request";
         severity := medium |} issues in
  let issues :=
    push_if (String.length prompt <? 20)
      {| type := too_broad;
         description := "Prompt is very short and may be too broad";
         severity := high |} issues in
  let issues :=
    push_if (detectAmbiguity prompt)
      {| type := ambiguity;
         description :=
           "Prompt contains ambiguous language that may lead to unclear responses";
         severity := medium |} issues in
  let issues :=
    push_if (detectPotentialBias prompt)
      {| type := bias;
         description := "Prompt may contain biased language or assumptions";
         severity := low |} issues in
  issues.

Definition technicalIndicators : list string :=
  [ "code"; "function"; "algorithm"; "api"; "database"; "sql";
    "programming"; "development"; "technical"; "implementation";
    "architecture"; "design pattern"; "framework"; "library" ].

Definition detectTechnicalContent (prompt : string) : bool :=
  some_included technicalIndicators prompt.

(** [prompt.includes(' and ') || prompt.includes(', ') || prompt.includes('\n')] *)
Definition hasMultipleRequests (prompt : string) : bool :=
  includes prompt " and " || includes prompt ", "
  || includes prompt (String newline EmptyString).

(** The accumulator [complexityScore] of [determineComplexity], as a
    function of the word count and of the five tests. *)
Definition complexityPoints
  (words : nat) (structure : Structure) (multiple technical : bool) : nat :=
  let complexityScore := 0 in
  let complexityScore :=
    if 100 <? words then complexityScore + 1 else complexityScore in
  let complexityScore :=
    if 200 <? words then complexityScore + 1 else complexityScore in
  let complexityScore :=
    if hasContext structure then complexityScore + 1 else complexityScore in
  let complexityScore :=
    if hasExamples structure then complexityScore + 1 else complexityScore in
  let complexityScore :=
    if hasConstraints structure then complexityScore + 1 else complexityScore in
  let complexityScore :=
    if multiple then complexityScore + 1 else complexityScore in
  let complexityScore :=
    if technical then complexityScore + 1 else complexityScore in
  complexityScore.

Definition tierOf (complexityScore : nat) : Complexity :=
  if complexityScore <=? 2 then simple
  else if complexityScore <=? 4 then moderate
  else complex.

(** [prompt.split(/\s+/).length] *)
Definition wordCount (prompt : string) : nat := length (words_of prompt).

Definition complexityScore (prompt : string) (structure : Structure) : nat :=
  complexityPoints (wordCount prompt) structure
    (hasMultipleRequests prompt) (detectTechnicalContent prompt).

Definition determineComplexity (prompt : string) (structure : Structure)
  : Complexity :=
  tierOf (complexityScore prompt structure).

Definition detectMultiStep (structure : Structure) : bool :=
  hasConstraints structure && hasExpectedOutput structure.

Definition selectTechnique (complexity : Complexity) (structure : Structure)
  : string :=
  match complexity with
  | simple =>
      if hasExpectedOutput structure then "Direct Question" else "Zero-Shot"
  | moderate =>
      if hasExamples structure then "Few-Shot"
      else if hasContext structure then "Role-Based"
      else "Chain of Thought"
  | complex =>
      if hasConstraints structure && hasContext structure then "ReAct"
      else if detectMultiStep structure then "Multi-Step Reasoning"
      else "Tree of Thoughts"
  end.

Definition rationales : list (string * string) :=
  [ ("Zero-Shot", "Simple, direct prompt suitable for straightforward requests");
    ("Direct Question", "Clear question format with expected output specified");
    ("Few-Shot", "Examples provided to guide the model's response format");
    ("Chain of Thought", "Moderate complexity requiring step-by-step reasoning");
    ("Role-Based", "Context suggests specific expertise or perspective needed");
    ("Tree of Thoughts",
     "Complex problem requiring exploration of multiple approaches");
    ("ReAct", "Complex task with constraints requiring reasoning and action");
    ("Multi-Step Reasoning",
     "Complex multi-part problem requiring structured approach") ].

(** [rationales[technique] || '...']; no rationale is the empty string. *)
Definition getTechniqueRationale (technique : string) (complexity : Complexity)
  : string :=
  match find (fun kv => String.eqb (fst kv) technique) rationales with
  | Some kv => snd kv
  | None => "Selected based on prompt complexity and structure"
  end.

(** The body of the [forEach] over the issues. *)
Definition deduct (score : Q) (issue : Issue) : Q :=
  match severity issue with
  | high => score - 2
  | medium => score - 1
  | low => score - (1 # 2)
  end%Q.

Definition calculateQualityScore (structure : Structure) (issues : list Issue)
  : Q :=
  let score : Q := 10%Q in
  let score := if negb (hasContext structure) then (score - (3 # 2))%Q else score in
  let score := if negb (hasExamples structure) then (score - (1 # 2))%Q else score in
  let score := if negb (hasConstraints structure) then (score - (1 # 2))%Q else score in
  let score := if negb (hasExpectedOutput structure) then (score - 1)%Q else score in
  let score := fold_left deduct issues score in
  let score := (score + (clarityScore structure / 10) * 2)%Q in
  Qmax 0 (Qmin 10 (inject_Z (round (score * 10)) / 10)).

Definition analyzePrompt (prompt : string) : PromptAnalysis :=
  let structure := analyzeStructure prompt in
  let issues := detectIssues prompt structure in
  let complexity := determineComplexity prompt structure in
  let suggestedTechnique := selectTechnique complexity structure in
  let qualityScore := calculateQualityScore structure issues in
  {| qualityScore := qualityScore;
     complexity := complexity;
     structure := structure;
     issues := issues;
     suggestedTechnique := suggestedTechnique;
     techniqueRationale :=
       getTechniqueRationale suggestedTechnique complexity |}.

(** The field [techniques]: the techniques on offer for each tier. *)
Definition techniques (complexity : Complexity) : list string :=
  match complexity with
  | simple => [ "Zero-Shot"; "Direct Question" ]
  | moderate => [ "Few-Shot"; "Chain of Thought"; "Role-Based" ]
  | complex => [ "Tree of Thoughts"; "ReAct"; "Multi-Step Reasoning" ]
  end.

End Engine.

(** ** The storage manager

  [StorageManager] keeps its state in an SQLite database opened through
  better-sqlite3. A database here is the content of the tables that
  [savePrompt], [saveResponse] and [updatePromptAnalysis] read or write,
  with the constraints that [createTables] declares on them, and the
  connection's [foreign_keys] setting. Each of the three methods runs one
  statement; a statement that fails leaves the database as it was. The two
  values that come from outside, [uuidv4()] and [CURRENT_TIMESTAMP], are
  arguments [id] and [now]. *)

Module Storage.

Inductive Constraint : Type :=
| SQLITE_CONSTRAINT_NOTNULL
| SQLITE_CONSTRAINT_CHECK
| SQLITE_CONSTRAINT_PRIMARYKEY
| SQLITE_CONSTRAINT_FOREIGNKEY.

(** The error that [stmt.run] throws when the statement breaks a
    constraint of the schema. *)
Inductive Failure : Type :=
| SqliteError (code : Constraint).

Inductive outcome (A : Type) : Type :=
| Resolved (a : A)
| Rejected (e : Failure).
Arguments Resolved {A} a.
Arguments Rejected {A} e.

(** A row of [prompts]; a column that is not [NOT NULL] holds an [option]. *)
Record PromptRow : Type := {
  row_id : string;
  row_content : string;
  row_timestamp : Z;
  row_context : option string;
  row_conversation_id : option string;
  row_quality_score : option Q;
  row_complexity : option string;
  row_technique_used : option string;
  row_metadata : option string
}.

(** A row of [responses]. *)
Record ResponseRow : Type := {
  resp_id : string;
  resp_prompt_id : string;
  resp_content : string;
  resp_timestamp : Z;
  resp_tokens_used : option Q;
  resp_user_rating : option Q
}.

(** The two tables are keyed by their [PRIMARY KEY] column. *)
Record Database : Type := {
  foreign_keys : bool;
  prompts : gmap string PromptRow;
  responses : gmap string ResponseRow
}.

(** [new Database(path)] followed by [initialize()] on a new file: the
    SQLite build of better-sqlite3 has foreign keys on by default, and the
    only pragma the constructor sets is the journal mode. *)
Definition initialize : Database :=
  {| foreign_keys := true; prompts := ∅; responses := ∅ |}.

(** [Omit<PromptData, 'id' | 'timestamp'>]. [content] is declared
    [string]; [None] stands for a call that leaves it out, which the
    driver binds as [NULL]. [metadata] holds the text that
    [JSON.stringify] gives. *)
Record PromptInput : Type := {
  content : option string;
  context : option string;
  conversationId : option string;
  qualityScore : option Q;
  complexity : option Engine.Complexity;
  techniqueUsed : option string;
  metadata : option string
}.

(** [Omit<ResponseData, 'id' | 'timestamp'>] *)
Record ResponseInput : Type := {
  promptId : string;
  response_content : string;
  tokensUsed : option Q;
  userRating : option Q
}.

(** [x || null] on a string: [undefined] and [""] give [null]. *)
Definition string_or_null (x : option string) : option string :=
  match x with
  | Some EmptyString => None
  | _ => x
  end.

(** [x || null] on a number: [undefined] and [0] give [null]. *)
Definition number_or_null (x : option Q) : option Q :=
  match x with
  | Some q => if Qeq_bool q 0 then None else Some q
  | None => None
  end.

Definition complexity_text (c : Engine.Complexity) : string :=
  match c with
  | Engine.simple => "simple"
  | Engine.moderate => "moderate"
  | Engine.complex => "complex"
  end.

(** [CHECK(complexity IN ('simple', 'moderate', 'complex'))]; a check
    passes on [NULL]. *)
Definition check_complexity (c : option string) : bool :=
  match c with
  | None => true
  | Some s => String.eqb s "simple" || String.eqb s "moderate"
              || String.eqb s "complex"
  end.

(** [CHECK(user_rating BETWEEN 1 AND 5)] *)
Definition check_user_rating (r : option Q) : bool :=
  match r with
  | None => true
  | Some q => Qle_bool 1 q && Qle_bool q 5
  end.

(** [INSERT INTO prompts]: column checks, then the primary key. *)
Definition insert_prompt (row : PromptRow) (db : Database)
  : Constraint + Database :=
  if negb (check_complexity (row_complexity row)) then
    inl SQLITE_CONSTRAINT_CHECK
  else if bool_decide (is_Some (prompts db !! row_id row)) then
    inl SQLITE_CONSTRAINT_PRIMARYKEY
  else
    inr {| foreign_keys := foreign_keys db;
           prompts := <[row_id row := row]> (prompts db);
           responses := responses db |}.

(** [INSERT INTO responses]: column checks, the primary key, then
    [FOREIGN KEY (prompt_id) REFERENCES prompts(id)] when the connection
    enforces foreign keys. *)
Definition insert_response (row : ResponseRow) (db : Database)
  : Constraint + Database :=
  if negb (check_user_rating (resp_user_rating row)) then
    inl SQLITE_CONSTRAINT_CHECK
  else if bool_decide (is_Some (responses db !! resp_id row)) then
    inl SQLITE_CONSTRAINT_PRIMARYKEY
  else if foreign_keys db
          && negb (bool_decide (is_Some (prompts db !! resp_prompt_id row)))
  then
    inl SQLITE_CONSTRAINT_FOREIGNKEY
  else
    inr {| foreign_keys := foreign_keys db;
           prompts := prompts db;
           responses := <[resp_id row := row]> (responses db) |}.

(** [stmt.run(...)] of an insert: the generated id on success. *)
Definition run_insert {Row : Type}
  (insert : Row -> Database -> Constraint + Database)
  (id : string) (row : Row) (db : Database) : outcome string * Database :=
  match insert row db with
  | inl code => (Rejected (SqliteError code), db)
  | inr db' => (Resolved id, db')
  end.

(** [content TEXT NOT NULL] is the first constraint that the insert
    checks: a [content] that is left out reaches the column as [NULL]. *)
Definition savePrompt (id : string) (now : Z) (prompt : PromptInput)
  (db : Database) : outcome string * Database :=
  match content prompt with
  | None => (Rejected (SqliteError SQLITE_CONSTRAINT_NOTNULL), db)
  | Some text =>
      run_insert insert_prompt id
        {| row_id := id;
           row_content := text;
           row_timestamp := now;
           row_context := string_or_null (context prompt);
           row_conversation_id := string_or_null (conversationId prompt);
           row_quality_score := number_or_null (qualityScore prompt);
           row_complexity := option_map complexity_text (complexity prompt);
           row_technique_used := string_or_null (techniqueUsed prompt);
           row_metadata := metadata prompt |}
        db
  end.

Definition saveResponse (id : string) (now : Z) (response : ResponseInput)
  (db : Database) : outcome string * Database :=
  run_insert insert_response id
    {| resp_id := id;
       resp_prompt_id := promptId response;
       resp_content := response_content response;
       resp_timestamp := now;
       resp_tokens_used := number_or_null (tokensUsed response);
       resp_user_rating := number_or_null (userRating response) |}
    db.

(** [UPDATE prompts SET ... WHERE id = ?]: the statement changes the rows
    that match, and it is no error that none does. *)
Definition updatePromptAnalysis
  (promptId : string) (qualityScore : Q) (complexity techniqueUsed : string)
  (db : Database) : outcome unit * Database :=
  match prompts db !! promptId with
  | None => (Resolved tt, db)
  | Some row =>
      if check_complexity (Some complexity) then
        (Resolved tt,
         {| foreign_keys := foreign_keys db;
            prompts :=
              <[promptId :=
                  {| row_id := row_id row;
                     row_content := row_content row;
                     row_timestamp := row_timestamp row;
                     row_context := row_context row;
                     row_conversation_id := row_conversation_id row;
                     row_quality_score := Some qualityScore;
                     row_complexity := Some complexity;
                     row_technique_used := Some techniqueUsed;
                     row_metadata := row_metadata row |}]> (prompts db);
            responses := responses db |})
      else (Rejected (SqliteError SQLITE_CONSTRAINT_CHECK), db)
  end.

(** [SELECT * FROM prompts WHERE id = ?] *)
Definition getPromptById (id : string) (db : Database) : option PromptRow :=
  prompts db !! id.

Definition is_rejected {A : Type} (o : outcome A) : bool :=
  match o with
  | Rejected _ => true
  | Resolved _ => false
  end.

End Storage.

(** ** The quality-trend detector of [src/analysis/insights.ts] *)

Module Insights.
Import JsValue.

(** [PromptData] as the detectors receive it: [mapPromptRow] copies the
    columns [context], [conversation_id], [quality_score], [complexity]
    and [technique_used] as they are, so a [NULL] column is [null]. *)
Record PromptData : Type := {
  id : string;
  content : string;
  timestamp : Z;
  context : field string;
  conversationId : field string;
  qualityScore : field JsDouble.double;
  complexity : field Engine.Complexity;
  techniqueUsed : field string;
  metadata : option string
}.

Inductive InsightSeverity : Type := info | suggestion | warning.

(** [Omit<InsightData, 'id' | 'createdAt'>]; [evidence] lists the
    properties of the object in the order they are written. *)
Record Insight : Type := {
  type : string;
  severity : InsightSeverity;
  title : string;
  description : option string;
  evidence : list (string * JsDouble.double);
  promptIds : option (list string);
  acknowledged : bool
}.

Definition digits (n : Z) : string :=
  NilZero.string_of_uint (N.to_uint (Z.to_N n)).

(** [x.toFixed(1)] on the value that a finite number stands for: the
    integer [n] with [n / 10] nearest to [x], the larger one at a tie,
    printed with one digit after the point; the sign is handled apart. *)
Definition fixed1 (x : Q) : string :=
  let negative := JsNumber.Qlt_bool x 0 in
  let x := if negative then (- x)%Q else x in
  let n := Qfloor (x * 10 + (1 # 2)) in
  ((if negative then "-" else "")
     ++ digits (n / 10) ++ "." ++ digits (n mod 10))%string.

(** [x.toFixed(1)], below 10^21 in size (from there on JavaScript prints
    the exponent form). *)
Definition toFixed1 (x : JsDouble.double) : string :=
  match x with
  | S754_nan => "NaN"
  | S754_infinity s => if s then "-Infinity" else "Infinity"
  | _ => fixed1 (JsDouble.exact x)
  end.

(** [prompts.slice(from, to)] for [0 <= from <= to] *)
Definition slice {A : Type} (from to : nat) (l : list A) : list A :=
  firstn (to - from) (skipn from l).

(** [p => p.qualityScore !== undefined]: a [null] score passes. *)
Definition hasQualityScore (p : PromptData) : bool :=
  match qualityScore p with
  | undefined => false
  | _ => true
  end.

(** [.filter(p => p.qualityScore !== undefined).map(p => p.qualityScore!)]:
    the array can hold [null]. *)
Definition qualityScores (prompts : list PromptData)
  : list (field JsDouble.double) :=
  map qualityScore (List.filter hasQualityScore prompts).

(** The number that [+] takes from an operand: [null] is [+0],
    [undefined] is [NaN]. *)
Definition toNumber (x : field JsDouble.double) : JsDouble.double :=
  match x with
  | undefined => JsDouble.nan
  | null => JsDouble.zero
  | value d => d
  end.

Definition calculateAverageQuality (prompts : list PromptData)
  : JsDouble.double :=
  let qualityScores := qualityScores prompts in
  if length qualityScores =? 0 then JsDouble.zero
  else
    JsDouble.div
      (fold_left (fun sum score => JsDouble.add sum (toNumber score))
         qualityScores JsDouble.zero)
      (JsDouble.of_nat (length qualityScores)).

Definition analyzeQualityTrends (prompts : list PromptData) : list Insight :=
  let insights : list Insight := [] in
  let qualityPrompts := List.filter hasQualityScore prompts in
  if length qualityPrompts <? 10 then insights
  else
    let recentScore := calculateAverageQuality (slice 0 50 qualityPrompts) in
    let olderScore := calculateAverageQuality (slice 50 100 qualityPrompts) in
    let evidence :=
      [ ("recentScore", recentScore); ("olderScore", olderScore);
        ("sampleSize", JsDouble.of_nat (length qualityPrompts)) ] in
    if JsDouble.ltb recentScore (JsDouble.sub olderScore JsDouble.half) then
      insights ++
      [ {| type := "quality_decline";
           severity := warning;
           title := "Prompt Quality Declining";
           description :=
             Some ("Your recent prompts have an average quality score of "
                   ++ toFixed1 recentScore ++ ", down from "
                   ++ toFixed1 olderScore
                   ++ ". Consider adding more context and examples to your prompts.")%string;
           evidence := evidence;
           promptIds := Some (map id (slice 0 10 qualityPrompts));
           acknowledged := false |} ]
    else if JsDouble.ltb (JsDouble.add olderScore JsDouble.half) recentScore
    then
      insights ++
      [ {| type := "quality_improvement";
           severity := info;
           title := "Prompt Quality Improving";
           description :=
             Some ("Great job! Your recent prompts have an average quality score of "
                   ++ toFixed1 recentScore ++ ", up from "
                   ++ toFixed1 olderScore ++ ".")%string;
           evidence := evidence;
           promptIds := None;
           acknowledged := false |} ]
    else insights.

End Insights.

(** ** The other detectors of [src/analysis/insights.ts] *)

Module Miner.
Import JsString JsNumber.

(** A value of an [evidence] object: a number, an object of counters, or an
    array of words. *)
Inductive EvidenceValue : Type :=
| EvNumber (q : Q)
| EvCounts (counts : list (string * nat))
| EvWords (words : list string).

(** [Omit<InsightData, 'id' | 'createdAt'>], with the evidence values that
    these detectors write. *)
Record MinedInsight : Type := {
  type : string;
  severity : Insights.InsightSeverity;
  title : string;
  description : option string;
  evidence : list (string * EvidenceValue);
  promptIds : option (list string);
  acknowledged : bool
}.

(** [x.toFixed(0)]: the integer nearest to [x], the larger one at a tie; the
    sign is handled apart. The texts of this module print the exact ratio
    of the counts. *)
Definition toFixed0 (x : Q) : string :=
  let negative := Qlt_bool x 0 in
  let x := if negative then (- x)%Q else x in
  ((if negative then "-" else "") ++ Insights.digits (Qfloor (x + (1 # 2))))%string.

(** An object used as a table of counters: the keys with their counts, in
    the order in which the keys were first written. *)
Definition Counters : Type := list (string * nat).

(** [acc[key] || 0] *)
Definition count_of (key : string) (acc : Counters) : nat :=
  match find (fun kv => String.eqb (fst kv) key) acc with
  | Some kv => snd kv
  | None => 0
  end.

(** [acc[key] = (acc[key] || 0) + 1] *)
Fixpoint bump (key : string) (acc : Counters) : Counters :=
  match acc with
  | [] => [(key, 1)]
  | (k, n) :: rest =>
      if String.eqb k key then (k, n + 1) :: rest
      else (k, n) :: bump key rest
  end.

(** The key that [prompt.complexity!] names: a property key is the
    string of the value. *)
Definition complexity_key (p : Insights.PromptData) : string :=
  match Insights.complexity p with
  | JsValue.value c => Storage.complexity_text c
  | JsValue.null => "null"
  | JsValue.undefined => "undefined"
  end.

(** [p => p.complexity !== undefined]: a [null] complexity passes. *)
Definition hasComplexity (p : Insights.PromptData) : bool :=
  match Insights.complexity p with
  | JsValue.undefined => false
  | _ => true
  end.

(** [count / total * 100] *)
Definition percent (count total : nat) : Q :=
  (of_nat count / of_nat total * 100)%Q.

Definition analyzeComplexityPatterns (prompts : list Insights.PromptData)
  : list MinedInsight :=
  let insights : list MinedInsight := [] in
  let complexityPrompts := List.filter hasComplexity prompts in
  if length complexityPrompts <? 20 then insights
  else
    let complexityDistribution :=
      fold_left (fun acc prompt => bump (complexity_key prompt) acc)
                complexityPrompts [] in
    let total := length complexityPrompts in
    let simplePercent := percent (count_of "simple" complexityDistribution) total in
    let complexPercent := percent (count_of "complex" complexityDistribution) total in
    let insights :=
      if Qlt_bool 80 simplePercent then
        insights ++
        [ {| type := "complexity_suggestion";
             severity := Insights.suggestion;
             title := "Consider More Detailed Prompts";
             description :=
               Some (toFixed0 simplePercent
                     ++ "% of your prompts are classified as simple. Adding more context, examples, or constraints could improve response quality.")%string;
             evidence :=
               [ ("complexityDistribution", EvCounts complexityDistribution);
                 ("simplePercent", EvNumber simplePercent) ];
             promptIds := None;
             acknowledged := false |} ]
      else insights in
    let insights :=
      if Qlt_bool 60 complexPercent then
        insights ++
        [ {| type := "complexity_warning";
             severity := Insights.suggestion;
             title := "Many Complex Prompts Detected";
             description :=
               Some (toFixed0 complexPercent
                     ++ "% of your prompts are complex. Consider breaking down complex requests into smaller, more focused prompts for better results.")%string;
             evidence :=
               [ ("complexityDistribution", EvCounts complexityDistribution);
                 ("complexPercent", EvNumber complexPercent) ];
             promptIds := None;
             acknowledged := false |} ]
      else insights in
    insights.

Definition contextIndicators : list string :=
  [ "context"; "background"; "situation"; "scenario"; "given that";
    "assuming"; "consider"; "in the context of"; "for this project";
    "working on"; "building"; "creating"; "i am"; "i have"; "my project" ].

Definition hasContextIndicators (content : string) : bool :=
  Engine.some_included contextIndicators content.

Definition lacksContext (p : Insights.PromptData) : bool :=
  negb (hasContextIndicators (Insights.content p))
  && (50 <? String.length (Insights.content p)).

Definition analyzeContextUsage (prompts : list Insights.PromptData)
  : list MinedInsight :=
  let insights : list MinedInsight := [] in
  if length prompts <? 20 then insights
  else
    let promptsWithContext :=
      List.filter (fun p => hasContextIndicators (Insights.content p)) prompts in
    let contextUsagePercent :=
      percent (length promptsWithContext) (length prompts) in
    if Qlt_bool contextUsagePercent 30 then
      let lowContextPrompts :=
        Insights.slice 0 5 (List.filter lacksContext prompts) in
      insights ++
      [ {| type := "context_suggestion";
           severity := Insights.suggestion;
           title := "Add More Context to Your Prompts";
           description :=
             Some ("Only " ++ toFixed0 contextUsagePercent
                   ++ "% of your prompts include context. Adding background information can significantly improve response quality.")%string;
           evidence :=
             [ ("contextUsagePercent", EvNumber contextUsagePercent);
               ("totalPrompts", EvNumber (of_nat (length prompts))) ];
           promptIds := Some (map Insights.id lowContextPrompts);
           acknowledged := false |} ]
    else insights.

Definition isShort (p : Insights.PromptData) : bool :=
  String.length (Insights.content p) <? 20.

Definition isVeryLong (p : Insights.PromptData) : bool :=
  1000 <? String.length (Insights.content p).

(** [a.length / b.length] for a divisor that is not 0 *)
Definition ratio (count total : nat) : Q := (of_nat count / of_nat total)%Q.

Definition analyzePromptLength (prompts : list Insights.PromptData)
  : list MinedInsight :=
  let insights : list MinedInsight := [] in
  if length prompts <? 20 then insights
  else
    let lengths := map (fun p => String.length (Insights.content p)) prompts in
    let avgLength :=
      ratio (fold_left (fun sum len => sum + len) lengths 0) (length lengths) in
    let shortPrompts := List.filter isShort prompts in
    let veryLongPrompts := List.filter isVeryLong prompts in
    let insights :=
      if Qlt_bool (3 # 10) (ratio (length shortPrompts) (length prompts)) then
        insights ++
        [ {| type := "length_warning";
             severity := Insights.suggestion;
             title := "Many Short Prompts Detected";
             description :=
               Some (toFixed0 (ratio (length shortPrompts) (length prompts) * 100)
                     ++ "% of your prompts are very short (< 20 characters). Short prompts often lead to generic responses.")%string;
             evidence :=
               [ ("shortPromptsCount", EvNumber (of_nat (length shortPrompts)));
                 ("totalPrompts", EvNumber (of_nat (length prompts)));
                 ("avgLength", EvNumber avgLength) ];
             promptIds := Some (map Insights.id (Insights.slice 0 5 shortPrompts));
             acknowledged := false |} ]
      else insights in
    let insights :=
      if Qlt_bool (2 # 10) (ratio (length veryLongPrompts) (length prompts)) then
        insights ++
        [ {| type := "length_suggestion";
             severity := Insights.info;
             title := "Consider Breaking Down Long Prompts";
             description :=
               Some (toFixed0 (ratio (length veryLongPrompts) (length prompts) * 100)
                     ++ "% of your prompts are very long (> 1000 characters). Consider breaking them into smaller, focused requests.")%string;
             evidence :=
               [ ("longPromptsCount", EvNumber (of_nat (length veryLongPrompts)));
                 ("totalPrompts", EvNumber (of_nat (length prompts)));
                 ("avgLength", EvNumber avgLength) ];
             promptIds := None;
             acknowledged := false |} ]
      else insights in
    insights.

(** [\w] *)
Definition is_word_char (c : ascii) : bool :=
  let n := nat_of_ascii c in
  ((48 <=? n) && (n <=? 57)) || ((65 <=? n) && (n <=? 90))
  || (n =? 95) || ((97 <=? n) && (n <=? 122)).

(** [.replace(/[^\w\s]/g, ' ')] *)
Fixpoint replace_punctuation (s : string) : string :=
  match s with
  | EmptyString => EmptyString
  | String c s' =>
      String (if is_word_char c || is_space c then c else " "%char)
             (replace_punctuation s')
  end.

(** The constant [commonWords] of [findCommonWords]. *)
Definition commonWords : list string :=
  [ "the"; "a"; "an"; "and"; "or"; "but"; "in"; "on"; "at"; "to"; "for";
    "of"; "with"; "by"; "is"; "are"; "was"; "were"; "be"; "been"; "have";
    "has"; "had"; "do"; "does"; "did"; "will"; "would"; "could"; "should";
    "may"; "might"; "can"; "shall"; "must"; "i"; "you"; "he"; "she"; "it";
    "we"; "they"; "this"; "that"; "these"; "those" ].

(** [word => word.length > 3 && !commonWords.includes(word)] *)
Definition keepsWord (word : string) : bool :=
  (3 <? String.length word)
  && negb (existsb (fun common => String.eqb common word) commonWords).

(** The words that one prompt contributes. *)
Definition countedWords (content : string) : list string :=
  List.filter keepsWord
    (split is_space (replace_punctuation (toLowerCase content))).

(** The two lower-case names that [{}] inherits. Reading [wordFreq[word]]
    for one of them gives an object, and [(object || 0) + 1] is a text: for
    ["__proto__"] the assignment is ignored, for ["constructor"] the entry
    holds a text, which [count >= 3] refuses. Neither word is ever
    reported, and they are left out of the counters. *)
Definition inheritedName (word : string) : bool :=
  String.eqb word "constructor" || String.eqb word "__proto__".

(** [wordFreq[word] = (wordFreq[word] || 0) + 1] *)
Definition countWord (acc : Counters) (word : string) : Counters :=
  if inheritedName word then acc else bump word acc.

Definition wordFreq (prompts : list Insights.PromptData) : Counters :=
  fold_left
    (fun acc prompt =>
       fold_left countWord (countedWords (Insights.content prompt)) acc)
    prompts [].

Definition is_digit (c : ascii) : bool :=
  let n := nat_of_ascii c in (48 <=? n) && (n <=? 57).

Fixpoint all_digits (s : string) : bool :=
  match s with
  | EmptyString => true
  | String c s' => is_digit c && all_digits s'
  end.

Fixpoint decimal_value (s : string) (acc : N) : N :=
  match s with
  | EmptyString => acc
  | String c s' =>
      decimal_value s' (acc * 10 + (N_of_ascii c - 48))%N
  end.

(** A key that is an array index: the decimal text, without a leading zero,
    of a number below [2^32 - 1]. *)
Definition is_array_index (key : string) : bool :=
  match key with
  | EmptyString => false
  | String c rest =>
      all_digits key
      && (negb (Ascii.eqb c "0"%char) || String.eqb rest EmptyString)
      && (decimal_value key 0 <? 4294967295)%N
  end.

Fixpoint insert_index (e : string * nat) (sorted : Counters) : Counters :=
  match sorted with
  | [] => [e]
  | x :: rest =>
      if (decimal_value (fst e) 0 <? decimal_value (fst x) 0)%N
      then e :: sorted
      else x :: insert_index e rest
  end.

(** [Object.entries(o)]: the array-index keys in ascending order, then the
    other keys in the order in which they were created. *)
Definition entries (o : Counters) : Counters :=
  fold_right insert_index []
    (List.filter (fun kv => is_array_index (fst kv)) o)
  ++ List.filter (fun kv => negb (is_array_index (fst kv))) o.

(** An insertion step of [.sort(([_, a], [__, b]) => b - a)]: the sort is
    stable, so the entry goes before the first one that does not count
    more. *)
Fixpoint insert_by_count (e : string * nat) (sorted : Counters) : Counters :=
  match sorted with
  | [] => [e]
  | x :: rest =>
      if snd x <=? snd e then e :: sorted
      else x :: insert_by_count e rest
  end.

Definition sort_by_count (l : Counters) : Counters :=
  fold_right insert_by_count [] l.

Definition findCommonWords (prompts : list Insights.PromptData) : list string :=
  map fst
    (sort_by_count
       (List.filter (fun kv => 3 <=? snd kv) (entries (wordFreq prompts)))).

(** The calendar day of [timestamp.toISOString().split('T')[0]]. A
    [timestamp] is a time value in milliseconds; the day is named here by
    its number, which determines the text [YYYY-MM-DD] and is determined by
    it. *)
Definition dayOf (p : Insights.PromptData) : Z :=
  (Insights.timestamp p / 86400000)%Z.

Fixpoint bump_day (day : Z) (acc : list (Z * nat)) : list (Z * nat) :=
  match acc with
  | [] => [(day, 1)]
  | (d, n) :: rest =>
      if (d =? day)%Z then (d, n + 1) :: rest
      else (d, n) :: bump_day day rest
  end.

Definition groupPromptsByDay (prompts : list Insights.PromptData)
  : list (Z * nat) :=
  fold_left (fun acc prompt => bump_day (dayOf prompt) acc) prompts [].

Definition analyzeFrequencyPatterns (prompts : list Insights.PromptData)
  : list MinedInsight :=
  let insights : list MinedInsight := [] in
  if length prompts <? 50 then insights
  else
    let dailyCount := groupPromptsByDay prompts in
    let avgDailyPrompts :=
      ratio (fold_left (fun sum count => sum + count) (map snd dailyCount) 0)
            (length dailyCount) in
    let insights :=
      if Qlt_bool 50 avgDailyPrompts then
        insights ++
        [ {| type := "usage_pattern";
             severity := Insights.info;
             title := "High Daily Usage Detected";
             description :=
               Some ("You're averaging " ++ toFixed0 avgDailyPrompts
                     ++ " prompts per day. Consider creating templates for common requests to save time.")%string;
             evidence :=
               [ ("avgDailyPrompts", EvNumber avgDailyPrompts);
                 ("totalDays", EvNumber (of_nat (length dailyCount))) ];
             promptIds := None;
             acknowledged := false |} ]
      else insights in
    let commonWords := findCommonWords prompts in
    let insights :=
      if 0 <? length commonWords then
        insights ++
        [ {| type := "pattern_detection";
             severity := Insights.info;
             title := "Common Prompt Patterns Found";
             description :=
               Some ("You frequently use these terms: "
                     ++ String.concat ", " (Insights.slice 0 5 commonWords)
                     ++ ". Consider creating templates for these common requests.")%string;
             evidence :=
               [ ("commonWords", EvWords (Insights.slice 0 10 commonWords)) ];
             promptIds := None;
             acknowledged := false |} ]
      else insights in
    insights.

End Miner.

(** ** The route [POST /api/test-prompt] of the dashboard server *)

Module Dashboard.

(** What the handler sends back: [res.json] with the id and the analysis, or
    status 500 from the [catch]. *)
Inductive Reply : Type :=
| Success (promptId : string) (analysis : Engine.PromptAnalysis)
| Failed.

(** The handler, on the fields [prompt], [context] and [conversationId] of
    the request body. Without [prompt] the first await already throws. *)
Definition testPrompt
  (id : string) (now : Z) (prompt context conversationId : option string)
  (db : Storage.Database) : Reply * Storage.Database :=
  match
    Storage.savePrompt id now
      {| Storage.content := prompt;
         Storage.context := context;
         Storage.conversationId := conversationId;
         Storage.qualityScore := None;
         Storage.complexity := None;
         Storage.techniqueUsed := None;
         Storage.metadata := None |} db
  with
  | (Storage.Rejected _, db1) => (Failed, db1)
  | (Storage.Resolved promptId, db1) =>
      match prompt with
      | None => (Failed, db1)
      | Some text =>
          let analysis := Engine.analyzePrompt text in
          match
            Storage.updatePromptAnalysis promptId
              (Engine.qualityScore analysis)
              (Storage.complexity_text (Engine.complexity analysis))
              (Engine.suggestedTechnique analysis) db1
          with
          | (Storage.Rejected _, db2) => (Failed, db2)
          | (Storage.Resolved _, db2) => (Success promptId analysis, db2)
          end
      end
  end.

End Dashboard.

(** ** Vocabulary of the properties, and the inputs they are run on *)

Module Props.
Import JsString JsNumber.

(** The order [simple <= moderate <= complex] of the tiers. *)
Definition tier_rank (c : Engine.Complexity) : nat :=
  match c with
  | Engine.simple => 0
  | Engine.moderate => 1
  | Engine.complex => 2
  end.

(** The case table of the technique selector, as the specification
    words it. *)
Definition spec_technique_table
  (tier : Engine.Complexity)
  (hasContext hasExamples hasConstraints hasExpectedOutput : bool) : string :=
  match tier with
  | Engine.simple =>
      if hasExpectedOutput then "Direct Question" else "Zero-Shot"
  | Engine.moderate =>
      if hasExamples then "Few-Shot"
      else if hasContext then "Role-Based"
      else "Chain of Thought"
  | Engine.complex =>
      if hasConstraints && hasContext then "ReAct"
      else if hasConstraints && hasExpectedOutput then "Multi-Step Reasoning"
      else "Tree of Thoughts"
  end.

(** A rating as the data model has it: absent, or from 1 to 5. *)
Definition rating_in_range (r : option Q) : Prop :=
  match r with
  | None => True
  | Some q => (1 <= q)%Q /\ (q <= 5)%Q
  end.

(** The average that the specification asks for when no sentence is
    found: the token count itself. *)
Definition spec_averageTokensPerSentence (words sentences : list string) : Q :=
  if length sentences =? 0 then of_nat (length words)
  else (of_nat (length words) / of_nat (length sentences))%Q.

(** An issue of the given type and severity is in the list. *)
Definition flags (t : Engine.IssueType) (s : Engine.Severity)
  (issues : list Engine.Issue) : Prop :=
  exists i, In i issues /\ Engine.type i = t /\ Engine.severity i = s.

(** The detector's output holds an insight of the given type and severity. *)
Definition emits (t : string) (s : Insights.InsightSeverity)
  (out : list Insights.Insight) : Prop :=
  exists i, In i out /\ Insights.type i = t /\ Insights.severity i = s.

Fixpoint repeat_string (n : nat) (s : string) : string :=
  match n with
  | O => EmptyString
  | S n' => (s ++ repeat_string n' s)%string
  end.

(** A prompt of 150 words that triggers no keyword test. *)
Definition long_plain_prompt : string := repeat_string 150 "w ".

(** The record carries a quality score: the field holds a number. *)
Definition carries_score (p : Insights.PromptData) : bool :=
  match Insights.qualityScore p with
  | JsValue.value _ => true
  | _ => false
  end.

(** No record of the list has [null] for its quality score. *)
Definition no_null_score (prompts : list Insights.PromptData) : Prop :=
  forall p, In p prompts -> Insights.qualityScore p <> JsValue.null.

(** The scores of the records that carry one, most recent first. *)
Fixpoint scores (prompts : list Insights.PromptData)
  : list JsDouble.double :=
  match prompts with
  | [] => []
  | p :: prompts' =>
      match Insights.qualityScore p with
      | JsValue.value score => score :: scores prompts'
      | _ => scores prompts'
      end
  end.

(** The numbers that the detector averages: the score of every record
    whose quality score is not [undefined], most recent first, with 0 for
    a [null] score. *)
Fixpoint counted_scores (prompts : list Insights.PromptData)
  : list JsDouble.double :=
  match prompts with
  | [] => []
  | p :: prompts' =>
      match Insights.qualityScore p with
      | JsValue.undefined => counted_scores prompts'
      | JsValue.null => JsDouble.zero :: counted_scores prompts'
      | JsValue.value score => score :: counted_scores prompts'
      end
  end.

(** The sum of a cohort's scores in double precision, added one after the
    other onto [acc]. *)
Fixpoint double_sum (acc : JsDouble.double) (cohort : list JsDouble.double)
  : JsDouble.double :=
  match cohort with
  | [] => acc
  | score :: cohort' => double_sum (JsDouble.add acc score) cohort'
  end.

(** The mean quality of a cohort in double precision: the sum from 0
    divided by the number of scores; 0 for the empty cohort. *)
Definition double_mean (cohort : list JsDouble.double) : JsDouble.double :=
  match cohort with
  | [] => JsDouble.zero
  | _ :: _ =>
      JsDouble.div (double_sum JsDouble.zero cohort)
        (JsDouble.of_nat (length cohort))
  end.

(** The mean of the numbers that the scores of a cohort stand for, with
    no rounding. *)
Definition exact_mean (cohort : list JsDouble.double) : Q :=
  (fold_right Qplus 0 (map JsDouble.exact cohort)
   / inject_Z (Z.of_nat (length cohort)))%Q.

(** The most recent 50 scores and the 50 before them. *)
Definition recent_cohort (all : list JsDouble.double) : list JsDouble.double :=
  firstn 50 all.
Definition older_cohort (all : list JsDouble.double) : list JsDouble.double :=
  firstn 50 (skipn 50 all).

(** A stored prompt with the given id and quality score. *)
Definition scored_prompt (name : string) (score : JsValue.field JsDouble.double)
  : Insights.PromptData :=
  {| Insights.id := name;
     Insights.content := "fix this";
     Insights.timestamp := 0%Z;
     Insights.context := JsValue.null;
     Insights.conversationId := JsValue.null;
     Insights.qualityScore := score;
     Insights.complexity := JsValue.value Engine.simple;
     Insights.techniqueUsed := JsValue.value "Zero-Shot";
     Insights.metadata := None |}.

(** A stored prompt scored with the decimal [n / d]. *)
Definition scored (name : string) (n d : Z) : Insights.PromptData :=
  scored_prompt name (JsValue.value (JsDouble.decimal n d)).

(** Fifty recent prompts scored 5.5 after fifty older ones scored 6: the
    recent mean is 0.5 below the older one, no more and no less. *)
Definition history_half_point_down : list Insights.PromptData :=
  repeat (scored "recent" 55 10) 50 ++ repeat (scored "older" 6 1) 50.

(** Fifty recent prompts scored 5.6 after fifty older ones scored 6.1. *)
Definition history_of_decline : list Insights.PromptData :=
  repeat (scored "recent" 56 10) 50 ++ repeat (scored "older" 61 10) 50.



(** A prompt to save, with the given content and no analysis. *)
Definition new_prompt (text : option string) : Storage.PromptInput :=
  {| Storage.content := text;
     Storage.context := None;
     Storage.conversationId := None;
     Storage.qualityScore := None;
     Storage.complexity := None;
     Storage.techniqueUsed := None;
     Storage.metadata := None |}.

(** A response to a prompt that was never saved. *)
Definition orphan_response : Storage.ResponseInput :=
  {| Storage.promptId := "no-such-prompt";
     Storage.response_content := "an answer";
     Storage.tokensUsed := Some 42%Q;
     Storage.userRating := Some 4%Q |}.

(** The same response with a rating of 7, outside of 1 to 5. *)
Definition orphan_response_rated_7 : Storage.ResponseInput :=
  {| Storage.promptId := "no-such-prompt";
     Storage.response_content := "an answer";
     Storage.tokensUsed := Some 42%Q;
     Storage.userRating := Some 7%Q |}.

End Props.

(** ** Vocabulary and inputs of the further properties *)

Module Cases.
Import JsString JsNumber.

(** The severity that [detectIssues] gives to each type of issue. *)
Definition severity_of (t : Engine.IssueType) : Engine.Severity :=
  match t with
  | Engine.too_broad => Engine.high
  | Engine.bias => Engine.low
  | _ => Engine.medium
  end.

(** The characters of a string. *)
Definition chars (s : string) : list ascii := list_ascii_of_string s.

(** The four structural signals of [st] are among those of [st']. *)
Definition signals_within (st st' : Engine.Structure) : Prop :=
  (Engine.hasContext st = true -> Engine.hasContext st' = true)
  /\ (Engine.hasExamples st = true -> Engine.hasExamples st' = true)
  /\ (Engine.hasConstraints st = true -> Engine.hasConstraints st' = true)
  /\ (Engine.hasExpectedOutput st = true -> Engine.hasExpectedOutput st' = true).

(** The fallback text of [getTechniqueRationale]. *)
Definition fallback_rationale : string :=
  "Selected based on prompt complexity and structure".

(** A prompt with the four signals and no issue. *)
Definition complete_prompt : string :=
  "Context: I am building an API. For example, must return a list and explain.".

(** A prompt of 12 words that scores all five points of the classifier. *)
Definition dense_prompt : string :=
  "Context: building an API, for example it must return code and data".

(** A structure with the given signals and clarity. *)
Definition structure_of (ctx ex cons out : bool) (clarity : Q)
  : Engine.Structure :=
  {| Engine.hasContext := ctx;
     Engine.hasExamples := ex;
     Engine.hasConstraints := cons;
     Engine.hasExpectedOutput := out;
     Engine.clarityScore := clarity |}.

Definition bias_issue : Engine.Issue :=
  {| Engine.type := Engine.bias;
     Engine.description := "Prompt may contain biased language or assumptions";
     Engine.severity := Engine.low |}.

(** Every response row names a prompt that is in the table. *)
Definition referential_integrity (db : Storage.Database) : Prop :=
  forall (rid : string) (row : Storage.ResponseRow),
    Storage.responses db !! rid = Some row ->
    is_Some (Storage.prompts db !! Storage.resp_prompt_id row).

(** The database after one prompt was saved under ["id-1"]. *)
Definition db_one_prompt : Storage.Database :=
  snd (Storage.savePrompt "id-1" 0 (Props.new_prompt (Some "fix this"))
         Storage.initialize).

(** A response to the prompt ["id-1"] with the given rating. *)
Definition answer_rated (rating : option Q) : Storage.ResponseInput :=
  {| Storage.promptId := "id-1";
     Storage.response_content := "an answer";
     Storage.tokensUsed := None;
     Storage.userRating := rating |}.

(** The record has no quality score at all. *)
Definition score_is_undefined (p : Insights.PromptData) : bool :=
  match Insights.qualityScore p with
  | JsValue.undefined => true
  | _ => false
  end.

(** The record with a score of 0 in the place of a [null] score. *)
Definition null_as_zero (p : Insights.PromptData) : Insights.PromptData :=
  {| Insights.id := Insights.id p;
     Insights.content := Insights.content p;
     Insights.timestamp := Insights.timestamp p;
     Insights.context := Insights.context p;
     Insights.conversationId := Insights.conversationId p;
     Insights.qualityScore :=
       match Insights.qualityScore p with
       | JsValue.null => JsValue.value JsDouble.zero
       | score => score
       end;
     Insights.complexity := Insights.complexity p;
     Insights.techniqueUsed := Insights.techniqueUsed p;
     Insights.metadata := Insights.metadata p |}.

(** The ids of the records whose quality score is not [undefined], most
    recent first. *)
Fixpoint counted_ids (prompts : list Insights.PromptData) : list string :=
  match prompts with
  | [] => []
  | p :: prompts' =>
      match Insights.qualityScore p with
      | JsValue.undefined => counted_ids prompts'
      | _ => Insights.id p :: counted_ids prompts'
      end
  end.

(** Nine prompts scored 7. *)
Definition nine_scored : list Insights.PromptData :=
  repeat (Props.scored "s" 7 1) 9.

(** A prompt as it is read from the database before it is analysed: the
    quality score is [null]. *)
Definition unscored_row : Insights.PromptData :=
  Props.scored_prompt "u" JsValue.null.

(** The output of a detector holds an insight of the given type. *)
Definition mined (t : string) (out : list Miner.MinedInsight) : Prop :=
  exists i, In i out /\ Miner.type i = t.

(** The prompt is classified in the given tier. *)
Definition in_tier (tier : Engine.Complexity) (p : Insights.PromptData) : bool :=
  match Insights.complexity p, tier with
  | JsValue.value Engine.simple, Engine.simple => true
  | JsValue.value Engine.moderate, Engine.moderate => true
  | JsValue.value Engine.complex, Engine.complex => true
  | _, _ => false
  end.



(** A stored prompt with the given text, tier and time. *)
Definition text_prompt
  (name text : string) (tier : JsValue.field Engine.Complexity) (time : Z)
  : Insights.PromptData :=
  {| Insights.id := name;
     Insights.content := text;
     Insights.timestamp := time;
     Insights.context := JsValue.null;
     Insights.conversationId := JsValue.null;
     Insights.qualityScore := JsValue.null;
     Insights.complexity := tier;
     Insights.techniqueUsed := JsValue.null;
     Insights.metadata := None |}.

(** The record has no complexity at all. *)
Definition complexity_is_undefined (p : Insights.PromptData) : bool :=
  match Insights.complexity p with
  | JsValue.undefined => true
  | _ => false
  end.

(** Seventeen prompts classified as simple and three that are stored
    without an analysis. *)
Definition seventeen_simple_three_unclassified : list Insights.PromptData :=
  repeat (text_prompt "s" "fix this" (JsValue.value Engine.simple) 0) 17
  ++ repeat (text_prompt "u" "fix this" JsValue.null 0) 3.

(** Twenty prompts of the text ["fix this"], classified as simple. *)
Definition twenty_short_prompts : list Insights.PromptData :=
  repeat (text_prompt "s" "fix this" (JsValue.value Engine.simple) 0) 20.

(** Sixty prompts of one day that say ["refactor the parser module"]. *)
Definition sixty_prompts_one_day : list Insights.PromptData :=
  repeat (text_prompt "d" "refactor the parser module" JsValue.null 1000) 60.

(** [dailyCount[day] || 0] *)
Definition day_count (day : Z) (acc : list (Z * nat)) : nat :=
  match find (fun kv => (fst kv =? day)%Z) acc with
  | Some kv => snd kv
  | None => 0
  end.

(** The prompts of the given day. *)
Definition on_day (day : Z) (prompts : list Insights.PromptData)
  : list Insights.PromptData :=
  List.filter (fun p => (Miner.dayOf p =? day)%Z) prompts.

End Cases.

(** ** Properties of the analysis engine *)

Section EngineProperties.
Import JsString JsNumber Props.

Lemma Qlt_bool_iff (x y : Q) : Qlt_bool x y = true <-> (x < y)%Q.
Proof.
  unfold Qlt_bool. rewrite negb_true_iff. split.
  - intros H. apply Qnot_le_lt. intros Hle.
    apply Qle_bool_iff in Hle. congruence.
  - intros H. destruct (Qle_bool y x) eqn:E; [|reflexivity].
    apply Qle_bool_iff in E. exfalso. exact (Qlt_not_le _ _ H E).
Qed.

Lemma split_runs_length (sep : ascii -> bool) (in_sep : bool) (s : string) :
  1 <= length (split_runs sep in_sep s).
Proof.
  revert in_sep. induction s as [|c s IH]; intros in_sep; simpl.
  - lia.
  - destruct (sep c).
    + destruct in_sep; [apply IH | simpl; lia].
    + specialize (IH false).
      destruct (split_runs sep false s); simpl in *; lia.
Qed.

(** [split] gives at least one word, whatever the prompt. *)
Lemma wordCount_positive (prompt : string) : 1 <= Engine.wordCount prompt.
Proof. apply split_runs_length. Qed.

(** Without a sentence the division of the word count is a division by
    zero: the average is [+Infinity] and the long-sentence test succeeds. *)
Lemma no_sentence_average_is_infinite (prompt : string) :
  Engine.sentences_of prompt = [] ->
  Engine.avgWordsPerSentence
    (Engine.words_of prompt) (Engine.sentences_of prompt) = PosInfinity
  /\ gt (Engine.avgWordsPerSentence
           (Engine.words_of prompt) (Engine.sentences_of prompt)) 30 = true.
Proof.
  intros E. rewrite E. unfold Engine.avgWordsPerSentence. simpl.
  pose proof (wordCount_positive prompt) as Hw.
  unfold Engine.wordCount in Hw.
  destruct (length (Engine.words_of prompt)); [lia | split; reflexivity].
Qed.

(** C5, at the empty prompt. It has one word and no sentence. The code
    divides by zero, gets [+Infinity] and takes the long-sentence point
    off: the clarity score is 7. With the average read as the token count,
    which is 1, the point stays and the score would be 8. *)
Theorem clarity_of_empty_prompt :
  Engine.words_of "" = [""]
  /\ Engine.sentences_of "" = []
  /\ Engine.avgWordsPerSentence
       (Engine.words_of "") (Engine.sentences_of "") = PosInfinity
  /\ spec_averageTokensPerSentence
       (Engine.words_of "") (Engine.sentences_of "") = 1%Q
  /\ Qlt_bool 30 (spec_averageTokensPerSentence
                    (Engine.words_of "") (Engine.sentences_of "")) = false
  /\ (Engine.clarityScore (Engine.analyzeStructure "") == 7)%Q.
Proof. repeat split. Qed.

Lemma clamp_tenths (z : Z) :
  exists k : Z,
    (0 <= k <= 100)%Z
    /\ (Qmax 0 (Qmin 10 (inject_Z z / 10)) == inject_Z k / 10)%Q.
Proof.
  destruct (Z_lt_le_dec z 0) as [Hneg | Hpos].
  - exists 0%Z. split; [lia|].
    assert (H10 : (inject_Z z / 10 <= 10)%Q)
      by (unfold Qle; simpl; lia).
    rewrite (Q.min_r _ _ H10).
    rewrite Q.max_l; [reflexivity | unfold Qle; simpl; lia].
  - destruct (Z_le_gt_dec z 100) as [Hle | Hgt].
    + exists z. split; [lia|].
      assert (H10 : (inject_Z z / 10 <= 10)%Q)
        by (unfold Qle; simpl; lia).
      rewrite (Q.min_r _ _ H10).
      rewrite Q.max_r; [reflexivity | unfold Qle; simpl; lia].
    + exists 100%Z. split; [lia|].
      assert (H10 : (10 <= inject_Z z / 10)%Q)
        by (unfold Qle; simpl; lia).
      rewrite (Q.min_l _ _ H10).
      rewrite Q.max_r; [reflexivity | unfold Qle; simpl; lia].
Qed.

(** The scorer ends in a clamp of a number of tenths, for every structure
    and every list of issues. *)
Lemma calculateQualityScore_tenths
  (structure : Engine.Structure) (issues : list Engine.Issue) :
  exists k : Z,
    (0 <= k <= 100)%Z
    /\ (Engine.calculateQualityScore structure issues == inject_Z k / 10)%Q.
Proof. unfold Engine.calculateQualityScore. apply clamp_tenths. Qed.

(** C6. For every prompt, the quality score that [analyzePrompt] returns
    is between 0 and 10 and is a whole number of tenths. *)
Theorem qualityScore_bounded_one_decimal (prompt : string) :
  let q := Engine.qualityScore (Engine.analyzePrompt prompt) in
  (0 <= q)%Q /\ (q <= 10)%Q
  /\ exists k : Z, (0 <= k <= 100)%Z /\ (q == inject_Z k / 10)%Q.
Proof.
  simpl.
  destruct (calculateQualityScore_tenths
              (Engine.analyzeStructure prompt)
              (Engine.detectIssues prompt (Engine.analyzeStructure prompt)))
    as [k [Hk Hq]].
  split; [|split].
  - rewrite Hq. unfold Qle; simpl; lia.
  - rewrite Hq. unfold Qle; simpl; lia.
  - exists k. split; assumption.
Qed.

Lemma complexityPoints_monotone
  (w1 w2 : nat) (st1 st2 : Engine.Structure) (multiple technical : bool) :
  Engine.hasContext st1 = Engine.hasContext st2 ->
  Engine.hasExamples st1 = Engine.hasExamples st2 ->
  Engine.hasConstraints st1 = Engine.hasConstraints st2 ->
  w1 <= w2 ->
  Engine.complexityPoints w1 st1 multiple technical
  <= Engine.complexityPoints w2 st2 multiple technical.
Proof.
  intros Hc He Hk Hw. unfold Engine.complexityPoints.
  rewrite Hc, He, Hk.
  destruct (Nat.ltb_spec 100 w1), (Nat.ltb_spec 100 w2);
    destruct (Nat.ltb_spec 200 w1), (Nat.ltb_spec 200 w2); try lia;
    destruct (Engine.hasContext st2), (Engine.hasExamples st2),
      (Engine.hasConstraints st2), multiple, technical; simpl; lia.
Qed.

Lemma tierOf_monotone (a b : nat) :
  a <= b -> tier_rank (Engine.tierOf a) <= tier_rank (Engine.tierOf b).
Proof.
  intros Hab. unfold Engine.tierOf.
  destruct (Nat.leb_spec a 2), (Nat.leb_spec b 2);
    destruct (Nat.leb_spec a 4), (Nat.leb_spec b 4); simpl; lia.
Qed.

(** C7. Two prompts that agree on the structural signals counted by the
    classifier, on the connective test and on the technical-content test:
    the one with at least as many words has at least the complexity score
    of the other, and at least its tier. *)
Theorem complexity_monotone_in_word_count
  (p1 p2 : string) (st1 st2 : Engine.Structure) :
  Engine.hasContext st1 = Engine.hasContext st2 ->
  Engine.hasExamples st1 = Engine.hasExamples st2 ->
  Engine.hasConstraints st1 = Engine.hasConstraints st2 ->
  Engine.hasMultipleRequests p1 = Engine.hasMultipleRequests p2 ->
  Engine.detectTechnicalContent p1 = Engine.detectTechnicalContent p2 ->
  Engine.wordCount p1 <= Engine.wordCount p2 ->
  Engine.complexityScore p1 st1 <= Engine.complexityScore p2 st2
  /\ tier_rank (Engine.determineComplexity p1 st1)
     <= tier_rank (Engine.determineComplexity p2 st2).
Proof.
  intros Hc He Hk Hm Ht Hw.
  assert (Hs : Engine.complexityScore p1 st1 <= Engine.complexityScore p2 st2).
  { unfold Engine.complexityScore. rewrite Hm, Ht.
    apply complexityPoints_monotone; assumption. }
  split; [exact Hs|].
  unfold Engine.determineComplexity. apply tierOf_monotone, Hs.
Qed.

Lemma complexity_monotone_in_word_count_witness :
  Engine.wordCount "fix this" = 2
  /\ Engine.wordCount long_plain_prompt = 151
  /\ Engine.complexityScore "fix this" (Engine.analyzeStructure "fix this")
     <= Engine.complexityScore long_plain_prompt
          (Engine.analyzeStructure long_plain_prompt)
  /\ tier_rank (Engine.determineComplexity "fix this"
                  (Engine.analyzeStructure "fix this"))
     <= tier_rank (Engine.determineComplexity long_plain_prompt
                     (Engine.analyzeStructure long_plain_prompt)).
Proof.
  split; [reflexivity|]. split; [vm_compute; reflexivity|].
  apply (complexity_monotone_in_word_count
           "fix this" long_plain_prompt
           (Engine.analyzeStructure "fix this")
           (Engine.analyzeStructure long_plain_prompt)).
  - vm_compute; reflexivity.
  - vm_compute; reflexivity.
  - vm_compute; reflexivity.
  - vm_compute; reflexivity.
  - vm_compute; reflexivity.
  - vm_compute. lia.
Defined.

(** C8. For every tier and every structure, [selectTechnique] returns the
    technique of the case table. *)
Theorem selectTechnique_follows_table
  (tier : Engine.Complexity) (st : Engine.Structure) :
  Engine.selectTechnique tier st
  = spec_technique_table tier
      (Engine.hasContext st) (Engine.hasExamples st)
      (Engine.hasConstraints st) (Engine.hasExpectedOutput st).
Proof.
  unfold Engine.selectTechnique, Engine.detectMultiStep.
  destruct tier, (Engine.hasContext st), (Engine.hasExamples st),
    (Engine.hasConstraints st), (Engine.hasExpectedOutput st); reflexivity.
Qed.

(** C9. The analysis of ["fix this"] flags [too_broad] with severity
    [high], finds no context, classifies the prompt as [simple] and scores
    it 6.1, which is at most 6.5. *)
Theorem analysis_of_fix_this :
  let a := Engine.analyzePrompt "fix this" in
  flags Engine.too_broad Engine.high (Engine.issues a)
  /\ Engine.hasContext (Engine.structure a) = false
  /\ Engine.complexity a = Engine.simple
  /\ (Engine.qualityScore a == 61 # 10)%Q
  /\ (Engine.qualityScore a <= 65 # 10)%Q.
Proof.
  simpl. split; [|split; [|split; [|split]]].
  - eexists. split; [left; reflexivity|]. split; reflexivity.
  - reflexivity.
  - reflexivity.
  - vm_compute. reflexivity.
  - vm_compute. discriminate.
Qed.

End EngineProperties.

(** ** Properties of the storage manager *)

Section StorageProperties.
Import Props.

Lemma rating_in_range_passes_check (r : option Q) :
  rating_in_range r ->
  Storage.check_user_rating (Storage.number_or_null r) = true.
Proof.
  destruct r as [q|]; simpl; [|reflexivity].
  intros [H1 H5]. destruct (Qeq_bool q 0); simpl; [reflexivity|].
  apply andb_true_iff. split; apply Qle_bool_iff; assumption.
Qed.

Lemma lookup_None_not_is_Some {A : Type} (m : gmap string A) (k : string) :
  m !! k = None -> bool_decide (is_Some (m !! k)) = false.
Proof.
  intros H. apply bool_decide_eq_false. rewrite H. apply is_Some_None.
Qed.

(** No statement changes the [foreign_keys] setting, so every database that
    the manager reaches from [initialize] enforces foreign keys. *)
Lemma foreign_keys_kept_by_savePrompt
  (id : string) (now : Z) (prompt : Storage.PromptInput) (db : Storage.Database) :
  Storage.foreign_keys (snd (Storage.savePrompt id now prompt db))
  = Storage.foreign_keys db.
Proof.
  unfold Storage.savePrompt, Storage.run_insert, Storage.insert_prompt.
  destruct (Storage.content prompt); [|reflexivity].
  destruct (negb _); [reflexivity|]. destruct (bool_decide _); reflexivity.
Qed.

Lemma foreign_keys_kept_by_saveResponse
  (id : string) (now : Z) (response : Storage.ResponseInput)
  (db : Storage.Database) :
  Storage.foreign_keys (snd (Storage.saveResponse id now response db))
  = Storage.foreign_keys db.
Proof.
  unfold Storage.saveResponse, Storage.run_insert, Storage.insert_response.
  destruct (negb _); [reflexivity|]. destruct (bool_decide _); [reflexivity|].
  destruct (_ && _); reflexivity.
Qed.

Lemma foreign_keys_kept_by_updatePromptAnalysis
  (promptId : string) (qualityScore : Q) (complexity techniqueUsed : string)
  (db : Storage.Database) :
  Storage.foreign_keys
    (snd (Storage.updatePromptAnalysis
            promptId qualityScore complexity techniqueUsed db))
  = Storage.foreign_keys db.
Proof.
  unfold Storage.updatePromptAnalysis.
  destruct (Storage.prompts db !! promptId); [|reflexivity].
  destruct (Storage.check_complexity _); reflexivity.
Qed.

Lemma rating_out_of_range_fails_check (rating : Q) :
  ~ (rating == 0)%Q -> (rating < 1)%Q \/ (5 < rating)%Q ->
  Storage.check_user_rating (Storage.number_or_null (Some rating)) = false.
Proof.
  intros Hnonzero Hout. cbn [Storage.number_or_null].
  destruct (Qeq_bool rating 0) eqn:E;
    [apply Qeq_bool_iff in E; contradiction|].
  cbn [Storage.check_user_rating].
  apply andb_false_iff. destruct Hout as [Hlow | Hhigh].
  - left. destruct (Qle_bool 1 rating) eqn:E1; [|reflexivity].
    apply Qle_bool_iff in E1. exfalso. lra.
  - right. destruct (Qle_bool rating 5) eqn:E5; [|reflexivity].
    apply Qle_bool_iff in E5. exfalso. lra.
Qed.

(** C2, as stated, fails for a response with a rating of 7 to a prompt
    that was never saved: on a new database [saveResponse] is rejected with
    the error of the [CHECK] constraint of [user_rating], not with the
    foreign-key one. *)
Lemma saveResponse_orphan_rated_7_fails_on_check :
  Storage.prompts Storage.initialize
    !! Storage.promptId orphan_response_rated_7 = None
  /\ Storage.saveResponse "r-1" 0 orphan_response_rated_7 Storage.initialize
     = (Storage.Rejected (Storage.SqliteError Storage.SQLITE_CONSTRAINT_CHECK),
        Storage.initialize)
  /\ fst (Storage.saveResponse "r-1" 0 orphan_response_rated_7
            Storage.initialize)
     <> Storage.Rejected
          (Storage.SqliteError Storage.SQLITE_CONSTRAINT_FOREIGNKEY).
Proof. split; [reflexivity|]. split; [reflexivity|]. discriminate. Qed.

(** C2, amended. On a connection that enforces foreign keys, a response
    whose [promptId] is the id of no prompt is not saved: [saveResponse] is
    rejected and the database is as before. The rejection is the
    foreign-key one when the generated id is new and the rating is absent
    or from 1 to 5; it is the one of the [CHECK] constraint when the rating
    is a number other than 0 outside of 1 to 5. *)
Theorem saveResponse_rejects_unknown_prompt
  (id : string) (now : Z) (response : Storage.ResponseInput)
  (db : Storage.Database) :
  Storage.foreign_keys db = true ->
  Storage.prompts db !! Storage.promptId response = None ->
  Storage.is_rejected (fst (Storage.saveResponse id now response db)) = true
  /\ snd (Storage.saveResponse id now response db) = db
  /\ (Storage.responses db !! id = None ->
      rating_in_range (Storage.userRating response) ->
      fst (Storage.saveResponse id now response db)
      = Storage.Rejected
          (Storage.SqliteError Storage.SQLITE_CONSTRAINT_FOREIGNKEY))
  /\ (forall rating : Q,
        Storage.userRating response = Some rating ->
        ~ (rating == 0)%Q -> (rating < 1)%Q \/ (5 < rating)%Q ->
        fst (Storage.saveResponse id now response db)
        = Storage.Rejected
            (Storage.SqliteError Storage.SQLITE_CONSTRAINT_CHECK)).
Proof.
  intros Hfk Hprompt.
  unfold Storage.saveResponse, Storage.run_insert, Storage.insert_response.
  cbn [Storage.resp_user_rating Storage.resp_id Storage.resp_prompt_id].
  rewrite Hfk, (lookup_None_not_is_Some _ _ Hprompt). cbn [andb negb].
  split; [|split; [|split]].
  - destruct (negb _); [reflexivity|].
    destruct (bool_decide _); reflexivity.
  - destruct (negb _); [reflexivity|].
    destruct (bool_decide _); reflexivity.
  - intros Hid Hrating.
    rewrite (rating_in_range_passes_check _ Hrating).
    rewrite (lookup_None_not_is_Some _ _ Hid). reflexivity.
  - intros rating Hrating Hnonzero Hout. rewrite Hrating.
    rewrite (rating_out_of_range_fails_check _ Hnonzero Hout). reflexivity.
Qed.

Lemma saveResponse_rejects_unknown_prompt_witness :
  Storage.saveResponse "r-1" 0 orphan_response Storage.initialize
  = (Storage.Rejected
       (Storage.SqliteError Storage.SQLITE_CONSTRAINT_FOREIGNKEY),
     Storage.initialize).
Proof.
  destruct (saveResponse_rejects_unknown_prompt
              "r-1" 0 orphan_response Storage.initialize)
    as (_ & Hdb & Hfk & _).
  - reflexivity.
  - reflexivity.
  - rewrite (surjective_pairing
               (Storage.saveResponse "r-1" 0 orphan_response Storage.initialize)).
    rewrite Hdb, Hfk.
    + reflexivity.
    + reflexivity.
    + simpl. split; unfold Qle; simpl; lia.
Defined.

(** C3, as stated, fails at the empty content: on a new database
    [savePrompt] resolves with the id and the row is in [prompts]. *)
Lemma savePrompt_empty_content_is_saved :
  Storage.content (new_prompt (Some "")) = Some ""
  /\ Storage.is_rejected
       (fst (Storage.savePrompt "id-1" 0 (new_prompt (Some ""))
               Storage.initialize)) = false
  /\ fst (Storage.savePrompt "id-1" 0 (new_prompt (Some ""))
            Storage.initialize) = Storage.Resolved "id-1"
  /\ option_map Storage.row_content
       (Storage.getPromptById "id-1"
          (snd (Storage.savePrompt "id-1" 0 (new_prompt (Some ""))
                  Storage.initialize))) = Some "".
Proof. repeat split; vm_compute; reflexivity. Qed.

(** C3, amended. [savePrompt] does not look at the text of [content] and
    takes the id as it is generated. A call without [content] is rejected
    with the error of the [NOT NULL] constraint and the database is as
    before. A call with any text, the empty one too, resolves with the
    generated id when no stored prompt has it, and adds under it one row
    that holds the text and the [|| null] of the other fields: the
    analysis columns are [NULL] when the call gives no analysis. When a
    stored prompt has the id, the call is rejected with the error of the
    primary key and the database is as before. *)
Theorem savePrompt_stores_any_text
  (id : string) (now : Z) (prompt : Storage.PromptInput)
  (db : Storage.Database) :
  match Storage.content prompt with
  | None =>
      Storage.savePrompt id now prompt db
      = (Storage.Rejected
           (Storage.SqliteError Storage.SQLITE_CONSTRAINT_NOTNULL), db)
  | Some text =>
      match Storage.prompts db !! id with
      | Some _ =>
          Storage.savePrompt id now prompt db
          = (Storage.Rejected
               (Storage.SqliteError Storage.SQLITE_CONSTRAINT_PRIMARYKEY), db)
      | None =>
          exists row : Storage.PromptRow,
            Storage.savePrompt id now prompt db
            = (Storage.Resolved id,
               {| Storage.foreign_keys := Storage.foreign_keys db;
                  Storage.prompts := <[id := row]> (Storage.prompts db);
                  Storage.responses := Storage.responses db |})
            /\ Storage.row_id row = id
            /\ Storage.row_content row = text
            /\ Storage.row_quality_score row
               = Storage.number_or_null (Storage.qualityScore prompt)
            /\ Storage.row_complexity row
               = option_map Storage.complexity_text (Storage.complexity prompt)
            /\ Storage.row_technique_used row
               = Storage.string_or_null (Storage.techniqueUsed prompt)
            /\ (Storage.qualityScore prompt = None ->
                Storage.complexity prompt = None ->
                Storage.techniqueUsed prompt = None ->
                Storage.row_quality_score row = None
                /\ Storage.row_complexity row = None
                /\ Storage.row_technique_used row = None)
      end
  end.
Proof.
  unfold Storage.savePrompt.
  destruct (Storage.content prompt) as [text|]; [|reflexivity].
  assert (Hcheck :
            Storage.check_complexity
              (option_map Storage.complexity_text (Storage.complexity prompt))
            = true)
    by (destruct (Storage.complexity prompt) as [[]|]; reflexivity).
  destruct (Storage.prompts db !! id) as [taken|] eqn:Hid.
  - unfold Storage.run_insert, Storage.insert_prompt.
    cbn [Storage.row_complexity Storage.row_id].
    rewrite Hcheck, Hid. reflexivity.
  - eexists. split.
    + unfold Storage.run_insert, Storage.insert_prompt.
      cbn [Storage.row_complexity Storage.row_id].
      rewrite Hcheck, (lookup_None_not_is_Some _ _ Hid). reflexivity.
    + cbn. do 5 (split; [reflexivity|]).
      intros Hq Hc Ht. rewrite Hq, Hc, Ht. repeat split.
Qed.

Lemma savePrompt_stores_any_text_witness :
  (exists row : Storage.PromptRow,
     Storage.savePrompt "id-1" 0 (new_prompt (Some "fix this"))
       Storage.initialize
     = (Storage.Resolved "id-1",
        {| Storage.foreign_keys := true;
           Storage.prompts := {[ "id-1" := row ]};
           Storage.responses := ∅ |})
     /\ Storage.row_content row = "fix this"
     /\ Storage.row_quality_score row = None
     /\ Storage.row_complexity row = None
     /\ Storage.row_technique_used row = None)
  /\ Storage.savePrompt "id-1" 0 (new_prompt None) Storage.initialize
     = (Storage.Rejected
          (Storage.SqliteError Storage.SQLITE_CONSTRAINT_NOTNULL),
        Storage.initialize).
Proof.
  split.
  - pose proof (savePrompt_stores_any_text
                  "id-1" 0 (new_prompt (Some "fix this")) Storage.initialize)
      as H.
    cbn [Storage.content new_prompt] in H.
    change (Storage.prompts Storage.initialize !! "id-1")
      with (@None Storage.PromptRow) in H.
    cbv beta iota in H.
    destruct H as (row & Hsave & _ & Htext & _ & _ & _ & Hnull).
    exists row. split; [exact Hsave|]. split; [exact Htext|].
    apply Hnull; reflexivity.
  - exact (savePrompt_stores_any_text
             "id-1" 0 (new_prompt None) Storage.initialize).
Defined.

(** C4, as stated, fails on a new database: the update of an id that no
    prompt has is not rejected. *)
Lemma updatePromptAnalysis_unknown_id_resolves :
  Storage.prompts Storage.initialize !! "no-such-prompt" = None
  /\ Storage.is_rejected
       (fst (Storage.updatePromptAnalysis
               "no-such-prompt" (61 # 10) "simple" "Zero-Shot"
               Storage.initialize)) = false.
Proof. split; reflexivity. Qed.

(** C4, amended. For an id that no prompt has, [updatePromptAnalysis]
    resolves without an error and leaves the database as it was; no row
    is created under that id. *)
Theorem updatePromptAnalysis_unknown_id_no_change
  (promptId : string) (qualityScore : Q) (complexity techniqueUsed : string)
  (db : Storage.Database) :
  Storage.prompts db !! promptId = None ->
  Storage.updatePromptAnalysis
    promptId qualityScore complexity techniqueUsed db
  = (Storage.Resolved tt, db)
  /\ Storage.getPromptById promptId
       (snd (Storage.updatePromptAnalysis
               promptId qualityScore complexity techniqueUsed db)) = None.
Proof.
  intros Hid. unfold Storage.updatePromptAnalysis, Storage.getPromptById.
  rewrite Hid. split; [reflexivity | exact Hid].
Qed.

Lemma updatePromptAnalysis_unknown_id_no_change_witness :
  Storage.updatePromptAnalysis
    "no-such-prompt" (61 # 10) "simple" "Zero-Shot" Storage.initialize
  = (Storage.Resolved tt, Storage.initialize).
Proof.
  apply (updatePromptAnalysis_unknown_id_no_change
           "no-such-prompt" (61 # 10) "simple" "Zero-Shot" Storage.initialize).
  reflexivity.
Defined.

End StorageProperties.

(** ** Properties of the quality-trend detector *)

Section InsightsProperties.
Import JsNumber Props.

Lemma Qlt_bool_false_iff (x y : Q) : Qlt_bool x y = false <-> ~ (x < y)%Q.
Proof.
  rewrite <- Qlt_bool_iff. destruct (Qlt_bool x y); split; congruence.
Qed.

Lemma emits_singleton (t : string) (s : Insights.InsightSeverity)
  (i : Insights.Insight) :
  emits t s [i] <-> Insights.type i = t /\ Insights.severity i = s.
Proof.
  unfold emits. split.
  - intros (j & [<- | []] & Ht & Hs). split; assumption.
  - intros [Ht Hs]. exists i. split; [left; reflexivity | split; assumption].
Qed.

Lemma emits_nil (t : string) (s : Insights.InsightSeverity) : ~ emits t s [].
Proof. intros (j & [] & _). Qed.

(** *** The average of the code is the double-precision mean *)

Lemma toNumber_qualityScores (prompts : list Insights.PromptData) :
  map Insights.toNumber (Insights.qualityScores prompts)
  = counted_scores prompts.
Proof.
  unfold Insights.qualityScores.
  induction prompts as [|p prompts IH]; [reflexivity|].
  cbn [List.filter counted_scores]. unfold Insights.hasQualityScore at 1.
  destruct (Insights.qualityScore p) eqn:E; cbn [map]; rewrite ?E, IH;
    reflexivity.
Qed.

Lemma fold_left_double_sum
  (qs : list (JsValue.field JsDouble.double)) (acc : JsDouble.double) :
  fold_left (fun sum score => JsDouble.add sum (Insights.toNumber score)) qs acc
  = double_sum acc (map Insights.toNumber qs).
Proof.
  revert acc. induction qs as [|q qs IH]; intros acc; [reflexivity|].
  cbn [fold_left map double_sum]. apply IH.
Qed.

Lemma calculateAverageQuality_double_mean (prompts : list Insights.PromptData) :
  Insights.calculateAverageQuality prompts
  = double_mean (counted_scores prompts).
Proof.
  unfold Insights.calculateAverageQuality. rewrite fold_left_double_sum.
  rewrite <- (length_map Insights.toNumber (Insights.qualityScores prompts)).
  rewrite toNumber_qualityScores.
  destruct (counted_scores prompts); reflexivity.
Qed.

Lemma counted_scores_firstn (n : nat) (prompts : list Insights.PromptData) :
  counted_scores (firstn n (List.filter Insights.hasQualityScore prompts))
  = firstn n (counted_scores prompts).
Proof.
  revert n. induction prompts as [|p prompts IH]; intros n.
  - destruct n; reflexivity.
  - cbn [List.filter counted_scores]. unfold Insights.hasQualityScore at 1.
    destruct (Insights.qualityScore p) eqn:E.
    + apply IH.
    + destruct n; [reflexivity|].
      cbn [firstn counted_scores]. rewrite E, IH. reflexivity.
    + destruct n; [reflexivity|].
      cbn [firstn counted_scores]. rewrite E, IH. reflexivity.
Qed.

Lemma counted_scores_skipn (n : nat) (prompts : list Insights.PromptData) :
  counted_scores (skipn n (List.filter Insights.hasQualityScore prompts))
  = skipn n (counted_scores prompts).
Proof.
  revert n. induction prompts as [|p prompts IH]; intros n.
  - destruct n; reflexivity.
  - cbn [List.filter]. unfold Insights.hasQualityScore at 1.
    destruct (Insights.qualityScore p) eqn:E.
    + cbn [counted_scores]. rewrite E. apply IH.
    + destruct n.
      * cbn [skipn counted_scores]. rewrite E. cbn [skipn]. f_equal.
        exact (IH 0).
      * cbn [skipn counted_scores]. rewrite E. cbn [skipn]. apply IH.
    + destruct n.
      * cbn [skipn counted_scores]. rewrite E. cbn [skipn]. f_equal.
        exact (IH 0).
      * cbn [skipn counted_scores]. rewrite E. cbn [skipn]. apply IH.
Qed.

Lemma filter_idempotent_firstn {A : Type} (f : A -> bool) (n : nat) (l : list A) :
  List.filter f (firstn n (List.filter f l)) = firstn n (List.filter f l).
Proof.
  revert n. induction l as [|a l IH]; intros n.
  - destruct n; reflexivity.
  - cbn [List.filter]. destruct (f a) eqn:E; [|apply IH].
    destruct n; [reflexivity|].
    cbn [firstn List.filter]. rewrite E, IH. reflexivity.
Qed.

Lemma filter_idempotent_skipn {A : Type} (f : A -> bool) (n : nat) (l : list A) :
  List.filter f (skipn n (List.filter f l)) = skipn n (List.filter f l).
Proof.
  revert n. induction l as [|a l IH]; intros n.
  - destruct n; reflexivity.
  - cbn [List.filter]. destruct (f a) eqn:E; [|apply IH].
    destruct n.
    + cbn [skipn List.filter]. rewrite E. f_equal. exact (IH 0).
    + cbn [skipn]. apply IH.
Qed.

Lemma length_counted (prompts : list Insights.PromptData) :
  length (List.filter Insights.hasQualityScore prompts)
  = length (counted_scores prompts).
Proof.
  rewrite <- toNumber_qualityScores. unfold Insights.qualityScores.
  rewrite !length_map. reflexivity.
Qed.

(** The two means that the detector compares. *)
Lemma recentScore_double_mean (prompts : list Insights.PromptData) :
  Insights.calculateAverageQuality
    (Insights.slice 0 50 (List.filter Insights.hasQualityScore prompts))
  = double_mean (recent_cohort (counted_scores prompts)).
Proof.
  rewrite calculateAverageQuality_double_mean. unfold Insights.slice.
  change (50 - 0) with 50. rewrite skipn_O, counted_scores_firstn.
  reflexivity.
Qed.

Lemma olderScore_double_mean (prompts : list Insights.PromptData) :
  Insights.calculateAverageQuality
    (Insights.slice 50 100 (List.filter Insights.hasQualityScore prompts))
  = double_mean (older_cohort (counted_scores prompts)).
Proof.
  rewrite calculateAverageQuality_double_mean. unfold Insights.slice.
  change (100 - 50) with 50. unfold older_cohort.
  rewrite <- (filter_idempotent_skipn Insights.hasQualityScore 50 prompts).
  rewrite counted_scores_firstn, counted_scores_skipn. reflexivity.
Qed.

(** Without a [null] score, the counted numbers are the scores. *)
Lemma counted_scores_no_null (prompts : list Insights.PromptData) :
  no_null_score prompts -> counted_scores prompts = scores prompts.
Proof.
  induction prompts as [|p prompts IH]; intros Hnull; [reflexivity|].
  assert (Hrest : no_null_score prompts)
    by (intros q Hq; apply Hnull; right; exact Hq).
  cbn [counted_scores scores].
  destruct (Insights.qualityScore p) eqn:E.
  - apply IH, Hrest.
  - exfalso. apply (Hnull p); [left; reflexivity | exact E].
  - rewrite (IH Hrest). reflexivity.
Qed.

(** The three ways out of the detector once 10 records are counted. *)
Lemma analyzeQualityTrends_cases (prompts : list Insights.PromptData) :
  let all := counted_scores prompts in
  let recent := double_mean (recent_cohort all) in
  let older := double_mean (older_cohort all) in
  let out := Insights.analyzeQualityTrends prompts in
  (length all <? 10) = false ->
  (JsDouble.ltb recent (JsDouble.sub older JsDouble.half) = true
   /\ exists i, out = [i] /\ Insights.type i = "quality_decline"
                /\ Insights.severity i = Insights.warning)
  \/ (JsDouble.ltb recent (JsDouble.sub older JsDouble.half) = false
      /\ JsDouble.ltb (JsDouble.add older JsDouble.half) recent = true
      /\ exists i, out = [i] /\ Insights.type i = "quality_improvement"
                   /\ Insights.severity i = Insights.info)
  \/ (JsDouble.ltb recent (JsDouble.sub older JsDouble.half) = false
      /\ JsDouble.ltb (JsDouble.add older JsDouble.half) recent = false
      /\ out = []).
Proof.
  cbv zeta. intros Hten. unfold Insights.analyzeQualityTrends.
  rewrite recentScore_double_mean, olderScore_double_mean, length_counted, Hten.
  set (recent := double_mean (recent_cohort (counted_scores prompts))).
  set (older := double_mean (older_cohort (counted_scores prompts))).
  destruct (JsDouble.ltb recent (JsDouble.sub older JsDouble.half)) eqn:Edecline;
    [|destruct (JsDouble.ltb (JsDouble.add older JsDouble.half) recent)
        eqn:Eimprove];
    cbn [app].
  - left. split; [reflexivity|].
    eexists. split; [reflexivity|]. split; reflexivity.
  - right; left. split; [reflexivity|]. split; [reflexivity|].
    eexists. split; [reflexivity|]. split; reflexivity.
  - right; right. repeat split; reflexivity.
Qed.

(** C1, as stated, fails at the boundary. In [history_half_point_down] the
    recent mean, 5.5, is 0.5 below the older mean, 6, with and without
    rounding, and the detector emits nothing. *)
Lemma quality_decline_not_emitted_at_half_point :
  let all := scores history_half_point_down in
  let out := Insights.analyzeQualityTrends history_half_point_down in
  length all = 100
  /\ (exact_mean (recent_cohort all) == 11 # 2)%Q
  /\ (exact_mean (older_cohort all) == 6)%Q
  /\ (JsDouble.exact (double_mean (recent_cohort all)) == 11 # 2)%Q
  /\ (JsDouble.exact (double_mean (older_cohort all)) == 6)%Q
  /\ out = []
  /\ ~ (emits "quality_decline" Insights.warning out
        <-> (exact_mean (recent_cohort all)
             <= exact_mean (older_cohort all) - (1 # 2))%Q).
Proof.
  cbv zeta.
  assert (Hout : Insights.analyzeQualityTrends history_half_point_down = [])
    by (vm_compute; reflexivity).
  assert (Hle : (exact_mean (recent_cohort (scores history_half_point_down))
                 <= exact_mean (older_cohort (scores history_half_point_down))
                    - (1 # 2))%Q)
    by (vm_compute; discriminate).
  split; [vm_compute; reflexivity|].
  split; [vm_compute; reflexivity|].
  split; [vm_compute; reflexivity|].
  split; [vm_compute; reflexivity|].
  split; [vm_compute; reflexivity|].
  split; [exact Hout|].
  rewrite Hout. intros [_ Hemit]. exact (emits_nil _ _ (Hemit Hle)).
Qed.

(** C1, amended. For a history in which no quality score is [null]: with
    fewer than 10 records that carry a score the detector returns nothing.
    Otherwise it emits a [quality_decline] warning exactly when the recent
    mean is less than the older mean minus 0.5, and else a
    [quality_improvement] info exactly when the recent mean is greater
    than the older mean plus 0.5; at most one insight in all and no
    insight of another type. The means are the double-precision means of
    the most recent 50 scores and of the 50 before them: the scores added
    in order and divided by their number, 0 for an empty cohort. *)
Theorem quality_trend_detector (prompts : list Insights.PromptData) :
  no_null_score prompts ->
  let all := scores prompts in
  let recent := double_mean (recent_cohort all) in
  let older := double_mean (older_cohort all) in
  let out := Insights.analyzeQualityTrends prompts in
  if length all <? 10 then out = []
  else
    (emits "quality_decline" Insights.warning out
     <-> JsDouble.ltb recent (JsDouble.sub older JsDouble.half) = true)
    /\ (emits "quality_improvement" Insights.info out
        <-> JsDouble.ltb recent (JsDouble.sub older JsDouble.half) = false
            /\ JsDouble.ltb (JsDouble.add older JsDouble.half) recent = true)
    /\ length out <= 1
    /\ (forall i, In i out ->
          Insights.type i = "quality_decline"
          \/ Insights.type i = "quality_improvement").
Proof.
  intros Hnull. cbv zeta. rewrite <- (counted_scores_no_null prompts Hnull).
  destruct (length (counted_scores prompts) <? 10) eqn:Hten.
  { unfold Insights.analyzeQualityTrends. rewrite length_counted, Hten.
    reflexivity. }
  destruct (analyzeQualityTrends_cases prompts Hten)
    as [(Hdown & i & -> & Ht & Hs)
       | [(Hnot & Hup & i & -> & Ht & Hs) | (Hnot & Hnup & ->)]].
  - rewrite !emits_singleton, Ht, Hs, Hdown. split; [|split; [|split]].
    + tauto.
    + split; [intros [E _]; discriminate E | intros [E _]; discriminate E].
    + simpl; lia.
    + intros j [<- | []]. left. exact Ht.
  - rewrite !emits_singleton, Ht, Hs, Hnot, Hup. split; [|split; [|split]].
    + split; [intros [E _]; discriminate E | intros E; discriminate E].
    + tauto.
    + simpl; lia.
    + intros j [<- | []]. right. exact Ht.
  - rewrite Hnot, Hnup. split; [|split; [|split]].
    + split; [intros H; destruct (emits_nil _ _ H) | intros H; discriminate H].
    + split; [intros H; destruct (emits_nil _ _ H)
             | intros [_ H]; discriminate H].
    + simpl; lia.
    + intros j [].
Qed.

Lemma no_null_score_repeat2
  (p q : Insights.PromptData) (n m : nat) :
  Insights.qualityScore p <> JsValue.null ->
  Insights.qualityScore q <> JsValue.null ->
  no_null_score (repeat p n ++ repeat q m).
Proof.
  intros Hp Hq r Hr. apply in_app_or in Hr.
  destruct Hr as [Hr | Hr]; apply repeat_spec in Hr; subst r; assumption.
Qed.

Lemma quality_trend_detector_witness :
  emits "quality_decline" Insights.warning
    (Insights.analyzeQualityTrends history_of_decline)
  /\ ~ emits "quality_improvement" Insights.info
        (Insights.analyzeQualityTrends history_of_decline).
Proof.
  pose proof (quality_trend_detector history_of_decline) as H.
  cbv zeta in H.
  assert (Hnull : no_null_score history_of_decline)
    by (apply no_null_score_repeat2; discriminate).
  specialize (H Hnull).
  replace (length (scores history_of_decline) <? 10) with false in H
    by (vm_compute; reflexivity).
  destruct H as (Hdecline & Himprove & _). split.
  - apply Hdecline. vm_compute. reflexivity.
  - intros Hemit. apply Himprove in Hemit. destruct Hemit as [Hnot _].
    vm_compute in Hnot. discriminate Hnot.
Defined.

(** *** The empty older cohort *)








End InsightsProperties.


(** ** Further properties of the analysis engine *)

Section EngineFurther.
Import JsString JsNumber Props Cases.

Lemma of_nat_nonneg (n : nat) : (0 <= of_nat n)%Q.
Proof. unfold of_nat, Qle. simpl. lia. Qed.

Lemma clamp_range (s : Q) :
  (0 <= Qmax 0 (Qmin 10 s))%Q /\ (Qmax 0 (Qmin 10 s) <= 10)%Q.
Proof.
  split; [apply Q.le_max_l|].
  apply Q.max_lub; [lra | apply Q.le_min_l].
Qed.

Lemma clamp_below (s b : Q) :
  (0 <= b)%Q -> (s <= b)%Q -> (Qmax 0 (Qmin 10 s) <= b)%Q.
Proof.
  intros Hb Hs. apply Q.max_lub; [exact Hb|].
  apply Qle_trans with s; [apply Q.le_min_r | exact Hs].
Qed.

Lemma clamp_above (s b : Q) :
  (b <= 10)%Q -> (b <= s)%Q -> (b <= Qmax 0 (Qmin 10 s))%Q.
Proof.
  intros Hb Hs. apply Qle_trans with (Qmin 10 s); [|apply Q.le_max_r].
  apply Q.min_glb; assumption.
Qed.

(** The clarity score is between 0 and 10 whatever the text. A text of
    fewer than 10 words scores at most 9, and a text without a run of
    [!]/[?] and without a run of capitals scores at least 7. *)
Theorem clarityScore_bounds (prompt : string) (words sentences : list string) :
  let clarity := Engine.calculateClarityScore prompt words sentences in
  (0 <= clarity)%Q /\ (clarity <= 10)%Q
  /\ (length words < 10 -> (clarity <= 9)%Q)
  /\ (count_matches is_bang_or_question 2 prompt = 0 ->
      count_matches is_upper 5 prompt = 0 -> (7 <= clarity)%Q).
Proof.
  cbv zeta. unfold Engine.calculateClarityScore.
  pose proof (of_nat_nonneg
                (count_matches is_bang_or_question 2 prompt
                 + count_matches is_upper 5 prompt)) as Hruns.
  split; [apply clamp_range|]. split; [apply clamp_range|]. split.
  - intros Hshort. apply Nat.ltb_lt in Hshort. rewrite Hshort.
    apply clamp_below; [lra|].
    destruct (500 <? length words), (gt _ 30),
      (includes prompt _ || includes prompt "1." || includes prompt "-"); lra.
  - intros -> ->. change (of_nat (0 + 0)) with 0%Q.
    apply clamp_above; [lra|].
    destruct (Nat.ltb_spec (length words) 10), (Nat.ltb_spec 500 (length words));
      try lia;
      destruct (gt _ 30),
        (includes prompt _ || includes prompt "1." || includes prompt "-"); lra.
Qed.

(** [detectIssues] returns at most three issues, of distinct types and
    never [inefficiency]; [missing_context] and [too_broad] never come
    together; [too_broad] is there exactly for a text of fewer than 20
    characters; each type keeps its one severity. *)
Theorem detectIssues_shape (prompt : string) (st : Engine.Structure) :
  let types := map Engine.type (Engine.detectIssues prompt st) in
  length (Engine.detectIssues prompt st) <= 3
  /\ List.NoDup types
  /\ ~ (In Engine.missing_context types /\ In Engine.too_broad types)
  /\ (In Engine.too_broad types <-> String.length prompt < 20)
  /\ ~ In Engine.inefficiency types
  /\ (forall i, In i (Engine.detectIssues prompt st) ->
        Engine.severity i = severity_of (Engine.type i)).
Proof.
  cbv zeta. unfold Engine.detectIssues, Engine.push_if.
  destruct (Engine.hasContext st),
    (Nat.ltb_spec 100 (String.length prompt)),
    (Nat.ltb_spec (String.length prompt) 20);
    try lia;
    destruct (Engine.detectAmbiguity prompt), (Engine.detectPotentialBias prompt);
    cbn;
    (split; [lia|]);
    (split; [repeat constructor; cbn; intuition discriminate|]);
    (split; [intuition discriminate|]);
    (split; [split; [intuition (try discriminate; lia) | intros; try lia; tauto]|]);
    (split; [intuition discriminate|]);
    intros i Hi; repeat (destruct Hi as [<- | Hi]; [reflexivity|]); destruct Hi.
Qed.

(** Without a structural signal and with at most 100 words, a prompt is
    [simple]: the two remaining tests give at most 2 points. *)
Theorem plain_short_prompt_is_simple (prompt : string) (st : Engine.Structure) :
  Engine.hasContext st = false ->
  Engine.hasExamples st = false ->
  Engine.hasConstraints st = false ->
  Engine.wordCount prompt <= 100 ->
  Engine.determineComplexity prompt st = Engine.simple.
Proof.
  intros Hc He Hk Hw.
  unfold Engine.determineComplexity, Engine.complexityScore,
    Engine.complexityPoints.
  rewrite Hc, He, Hk.
  destruct (Nat.ltb_spec 100 (Engine.wordCount prompt)); [lia|].
  destruct (Nat.ltb_spec 200 (Engine.wordCount prompt)); [lia|].
  destruct (Engine.hasMultipleRequests prompt),
    (Engine.detectTechnicalContent prompt); reflexivity.
Qed.

Lemma plain_short_prompt_is_simple_witness :
  Engine.determineComplexity "fix this" (Engine.analyzeStructure "fix this")
  = Engine.simple.
Proof.
  apply plain_short_prompt_is_simple.
  - reflexivity.
  - reflexivity.
  - reflexivity.
  - vm_compute. lia.
Defined.

(** A prompt of at most 100 words that [analyzePrompt] classifies as
    [complex] is always given the technique ReAct: it needs all five other
    points, so it has constraints and context. *)
Theorem complex_within_100_words_gets_ReAct (prompt : string) :
  Engine.wordCount prompt <= 100 ->
  Engine.complexity (Engine.analyzePrompt prompt) = Engine.complex ->
  Engine.suggestedTechnique (Engine.analyzePrompt prompt) = "ReAct".
Proof.
  intros Hw. cbn [Engine.analyzePrompt Engine.complexity Engine.suggestedTechnique].
  unfold Engine.determineComplexity at 2.
  unfold Engine.determineComplexity, Engine.complexityScore,
    Engine.complexityPoints, Engine.selectTechnique.
  destruct (Nat.ltb_spec 100 (Engine.wordCount prompt)); [lia|].
  destruct (Nat.ltb_spec 200 (Engine.wordCount prompt)); [lia|].
  destruct (Engine.hasContext (Engine.analyzeStructure prompt)),
    (Engine.hasExamples (Engine.analyzeStructure prompt)),
    (Engine.hasConstraints (Engine.analyzeStructure prompt)),
    (Engine.hasMultipleRequests prompt),
    (Engine.detectTechnicalContent prompt);
    cbn; intros Htier; try discriminate Htier; reflexivity.
Qed.

Lemma complex_within_100_words_gets_ReAct_witness :
  Engine.wordCount dense_prompt = 12
  /\ Engine.complexity (Engine.analyzePrompt dense_prompt) = Engine.complex
  /\ Engine.suggestedTechnique (Engine.analyzePrompt dense_prompt) = "ReAct".
Proof.
  split; [vm_compute; reflexivity|]. split; [vm_compute; reflexivity|].
  apply complex_within_100_words_gets_ReAct.
  - vm_compute. lia.
  - vm_compute. reflexivity.
Defined.

(** The technique that [selectTechnique] returns is one of those that
    [techniques] offers for the tier, and it has its own entry in
    [rationales]: [getTechniqueRationale] never falls back on the generic
    text. *)
Theorem selectTechnique_is_offered
  (tier : Engine.Complexity) (st : Engine.Structure) :
  In (Engine.selectTechnique tier st) (Engine.techniques tier)
  /\ In (Engine.selectTechnique tier st,
         Engine.getTechniqueRationale (Engine.selectTechnique tier st) tier)
        Engine.rationales
  /\ Engine.getTechniqueRationale (Engine.selectTechnique tier st) tier
     <> fallback_rationale.
Proof.
  unfold Engine.selectTechnique, Engine.detectMultiStep.
  destruct tier, (Engine.hasContext st), (Engine.hasExamples st),
    (Engine.hasConstraints st), (Engine.hasExpectedOutput st);
    (split; [cbn; tauto|]); (split; [cbn; tauto|]);
    intros H; vm_compute in H; discriminate H.
Qed.

Lemma split_runs_pieces (sep : ascii -> bool) (in_sep : bool) (s piece : string) :
  In piece (split_runs sep in_sep s) ->
  forall c, In c (chars piece) -> sep c = false.
Proof.
  revert in_sep piece. induction s as [|a s IH]; intros in_sep piece; simpl.
  - intros [<- | []] c [].
  - destruct (sep a) eqn:Ea.
    + destruct in_sep.
      * apply IH.
      * intros [<- | Hin]; [intros c [] | exact (IH true piece Hin)].
    + pose proof (IH false) as IHf.
      destruct (split_runs sep false s) as [|first rest].
      * intros [<- | []] c [<- | []]. exact Ea.
      * intros [<- | Hin] c Hc.
        -- destruct Hc as [<- | Hc]; [exact Ea|].
           exact (IHf first (or_introl eq_refl) c Hc).
        -- exact (IHf piece (or_intror Hin) c Hc).
Qed.

(** No word of [prompt.split(/\s+/)] holds a white-space character; no
    sentence that [analyzeStructure] counts holds one of [. ! ?], and none
    is blank. *)
Theorem words_and_sentences_are_clean (prompt : string) :
  (forall w, In w (Engine.words_of prompt) ->
             forall c, In c (chars w) -> is_space c = false)
  /\ (forall s, In s (Engine.sentences_of prompt) ->
                (forall c, In c (chars s) -> is_sentence_end c = false)
                /\ trim s <> EmptyString).
Proof.
  split.
  - intros w Hw. exact (split_runs_pieces is_space false prompt w Hw).
  - intros s Hs. unfold Engine.sentences_of in Hs.
    apply filter_In in Hs. destruct Hs as [Hs Hkeep]. split.
    + exact (split_runs_pieces is_sentence_end false prompt s Hs).
    + intros E. rewrite E in Hkeep. discriminate Hkeep.
Qed.

Lemma toLowerCase_app (a b : string) :
  toLowerCase (a ++ b)%string = (toLowerCase a ++ toLowerCase b)%string.
Proof. induction a as [|c a IH]; simpl; [reflexivity | rewrite IH; reflexivity]. Qed.

Lemma startsWith_empty (s : string) : startsWith s EmptyString = true.
Proof. destruct s; reflexivity. Qed.

Lemma startsWith_app (s after sub : string) :
  startsWith s sub = true -> startsWith (s ++ after)%string sub = true.
Proof.
  revert s. induction sub as [|b sub IH]; intros s H.
  - apply startsWith_empty.
  - destruct s as [|a s]; simpl in *; [discriminate H|].
    apply andb_true_iff in H. destruct H as [Hab Hrest].
    rewrite Hab. exact (IH s Hrest).
Qed.

Lemma includes_app_after (s after sub : string) :
  includes s sub = true -> includes (s ++ after)%string sub = true.
Proof.
  induction s as [|a s IH]; intros H.
  - simpl in H. rewrite orb_false_r in H. destruct sub; [|discriminate H].
    destruct after; reflexivity.
  - cbn [includes] in H. apply orb_true_iff in H.
    change (String a s ++ after)%string with (String a (s ++ after)%string).
    cbn [includes]. apply orb_true_iff. destruct H as [H | H].
    + left. exact (startsWith_app (String a s) after sub H).
    + right. exact (IH H).
Qed.

Lemma includes_app_before (before s sub : string) :
  includes s sub = true -> includes (before ++ s)%string sub = true.
Proof.
  intros H. induction before as [|a before IH]; [exact H|].
  change (String a before ++ s)%string with (String a (before ++ s)%string).
  cbn [includes]. rewrite IH. apply orb_true_r.
Qed.

(** A keyword test that succeeds on a text succeeds on every text that
    contains it: text added before or after never removes a signal. The
    seven detectors of the engine are this test on their own list. *)
Theorem keyword_test_survives_embedding
  (indicators : list string) (before prompt after : string) :
  Engine.some_included indicators prompt = true ->
  Engine.some_included indicators (before ++ prompt ++ after)%string = true.
Proof.
  unfold Engine.some_included. rewrite !existsb_exists.
  intros (indicator & Hin & Hinc). exists indicator. split; [exact Hin|].
  rewrite !toLowerCase_app.
  apply includes_app_before, includes_app_after, Hinc.
Qed.

Lemma keyword_test_survives_embedding_witness :
  Engine.detectContext "Background: none" = true
  /\ Engine.detectContext ("Hello. " ++ "Background: none" ++ " Thanks!")%string
     = true.
Proof.
  split; [reflexivity|].
  apply (keyword_test_survives_embedding
           Engine.contextIndicators "Hello. " "Background: none" " Thanks!").
  reflexivity.
Defined.

Lemma round_resp_le (x y : Q) : (x <= y)%Q -> (round x <= round y)%Z.
Proof. intros H. unfold round. apply Qfloor_resp_le. lra. Qed.

Lemma tenths_resp_le (a b : Z) :
  (a <= b)%Z -> (inject_Z a / 10 <= inject_Z b / 10)%Q.
Proof. intros H. unfold Qle. simpl. lia. Qed.

(** The last line of [calculateQualityScore] is monotone. *)
Lemma finish_resp_le (x y : Q) :
  (x <= y)%Q ->
  (Qmax 0 (Qmin 10 (inject_Z (round (x * 10)) / 10))
   <= Qmax 0 (Qmin 10 (inject_Z (round (y * 10)) / 10)))%Q.
Proof.
  intros H. apply Q.max_le_compat_l, Q.min_le_compat_l, tenths_resp_le.
  apply round_resp_le. lra.
Qed.

Lemma bonus_as_fifth (clarity : Q) : (clarity / 10 * 2 == clarity * (1 # 5))%Q.
Proof. field. Qed.

Lemma deduct_le (score : Q) (issue : Engine.Issue) :
  (Engine.deduct score issue <= score)%Q.
Proof. unfold Engine.deduct. destruct (Engine.severity issue); lra. Qed.

Lemma deduct_resp_le (s s' : Q) (issue : Engine.Issue) :
  (s <= s')%Q -> (Engine.deduct s issue <= Engine.deduct s' issue)%Q.
Proof. intros H. unfold Engine.deduct. destruct (Engine.severity issue); lra. Qed.

Lemma deductions_resp_le (issues : list Engine.Issue) (s s' : Q) :
  (s <= s')%Q ->
  (fold_left Engine.deduct issues s <= fold_left Engine.deduct issues s')%Q.
Proof.
  revert s s'. induction issues as [|i issues IH]; intros s s' H; simpl.
  - exact H.
  - apply IH, deduct_resp_le, H.
Qed.

Lemma deductions_le (issues : list Engine.Issue) (s : Q) :
  (fold_left Engine.deduct issues s <= s)%Q.
Proof.
  revert s. induction issues as [|i issues IH]; intros s; simpl.
  - lra.
  - apply Qle_trans with (Engine.deduct s i); [apply IH | apply deduct_le].
Qed.

(** The quality score never goes down when signals are added, when the
    clarity rises or when issues are taken off the end of the list. *)
Theorem calculateQualityScore_monotone
  (st st' : Engine.Structure) (issues more : list Engine.Issue) :
  signals_within st st' ->
  (Engine.clarityScore st <= Engine.clarityScore st')%Q ->
  (Engine.calculateQualityScore st (issues ++ more)
   <= Engine.calculateQualityScore st' issues)%Q.
Proof.
  intros (Hc & He & Hk & Ho) Hclarity.
  unfold Engine.calculateQualityScore. apply finish_resp_le.
  rewrite fold_left_app, !bonus_as_fifth.
  apply Qplus_le_compat; [|lra].
  eapply Qle_trans; [apply deductions_le|]. apply deductions_resp_le.
  destruct (Engine.hasContext st), (Engine.hasContext st'),
    (Engine.hasExamples st), (Engine.hasExamples st'),
    (Engine.hasConstraints st), (Engine.hasConstraints st'),
    (Engine.hasExpectedOutput st), (Engine.hasExpectedOutput st');
    cbn [negb];
    try (specialize (Hc eq_refl); discriminate Hc);
    try (specialize (He eq_refl); discriminate He);
    try (specialize (Hk eq_refl); discriminate Hk);
    try (specialize (Ho eq_refl); discriminate Ho);
    lra.
Qed.

Lemma calculateQualityScore_monotone_witness :
  (Engine.calculateQualityScore
     (structure_of false true false true 8) ([] ++ [bias_issue])
   <= Engine.calculateQualityScore (structure_of true true false true 9) [])%Q.
Proof.
  apply calculateQualityScore_monotone.
  - repeat split; cbn; congruence.
  - cbn. lra.
Defined.

(** A prompt with the four structural signals and no issue scores 10. *)
Theorem complete_prompt_scores_ten (prompt : string) :
  let analysis := Engine.analyzePrompt prompt in
  Engine.hasContext (Engine.structure analysis) = true ->
  Engine.hasExamples (Engine.structure analysis) = true ->
  Engine.hasConstraints (Engine.structure analysis) = true ->
  Engine.hasExpectedOutput (Engine.structure analysis) = true ->
  Engine.issues analysis = [] ->
  (Engine.qualityScore analysis == 10)%Q.
Proof.
  cbn [Engine.analyzePrompt Engine.structure Engine.issues Engine.qualityScore].
  intros Hc He Hk Ho Hissues.
  unfold Engine.calculateQualityScore. rewrite Hc, He, Hk, Ho, Hissues.
  cbn [negb fold_left].
  assert (Hclarity : (0 <= Engine.clarityScore (Engine.analyzeStructure prompt))%Q)
    by (cbn [Engine.analyzeStructure Engine.clarityScore];
        unfold Engine.calculateClarityScore; apply clamp_range).
  set (clarity := Engine.clarityScore (Engine.analyzeStructure prompt)) in *.
  assert (Hround : (100 <= round ((10 + clarity / 10 * 2) * 10))%Z).
  { change 100%Z with (Qfloor (inject_Z 100)) at 1.
    unfold round. apply Qfloor_resp_le. rewrite bonus_as_fifth.
    unfold inject_Z. lra. }
  rewrite Q.max_r.
  - apply Q.min_l. unfold Qle. simpl. lia.
  - apply Q.min_glb; [lra | unfold Qle; simpl; lia].
Qed.

Lemma complete_prompt_scores_ten_witness :
  Engine.issues (Engine.analyzePrompt complete_prompt) = []
  /\ (Engine.qualityScore (Engine.analyzePrompt complete_prompt) == 10)%Q.
Proof.
  split; [vm_compute; reflexivity|].
  apply complete_prompt_scores_ten; vm_compute; reflexivity.
Defined.

End EngineFurther.

(** ** Further properties of the storage manager *)

Section StorageFurther.
Import Props Cases.

Lemma check_complexity_text (c : option Engine.Complexity) :
  Storage.check_complexity (option_map Storage.complexity_text c) = true.
Proof. destruct c as [[]|]; reflexivity. Qed.

Lemma insert_prompt_fresh (row : Storage.PromptRow) (db : Storage.Database) :
  Storage.check_complexity (Storage.row_complexity row) = true ->
  Storage.prompts db !! Storage.row_id row = None ->
  Storage.insert_prompt row db
  = inr {| Storage.foreign_keys := Storage.foreign_keys db;
           Storage.prompts := <[Storage.row_id row := row]> (Storage.prompts db);
           Storage.responses := Storage.responses db |}.
Proof.
  intros Hcheck Hfresh. unfold Storage.insert_prompt.
  rewrite Hcheck, (lookup_None_not_is_Some _ _ Hfresh). reflexivity.
Qed.

Lemma insert_prompt_taken (row : Storage.PromptRow) (db : Storage.Database) :
  Storage.check_complexity (Storage.row_complexity row) = true ->
  is_Some (Storage.prompts db !! Storage.row_id row) ->
  Storage.insert_prompt row db = inl Storage.SQLITE_CONSTRAINT_PRIMARYKEY.
Proof.
  intros Hcheck Htaken. unfold Storage.insert_prompt.
  rewrite Hcheck, (bool_decide_eq_true_2 _ Htaken). reflexivity.
Qed.

(** A prompt that was saved is read back under its id, with its text and
    its time of insertion; the rows under the other ids and the responses
    are as before. *)
Theorem savePrompt_then_getPromptById
  (id : string) (now : Z) (prompt : Storage.PromptInput) (text : string)
  (db : Storage.Database) :
  Storage.prompts db !! id = None ->
  Storage.content prompt = Some text ->
  let db' := snd (Storage.savePrompt id now prompt db) in
  (exists row, Storage.getPromptById id db' = Some row
               /\ Storage.row_id row = id
               /\ Storage.row_content row = text
               /\ Storage.row_timestamp row = now)
  /\ (forall other, other <> id ->
        Storage.getPromptById other db' = Storage.getPromptById other db)
  /\ Storage.responses db' = Storage.responses db.
Proof.
  intros Hfresh Htext. cbv zeta.
  unfold Storage.savePrompt, Storage.run_insert. rewrite Htext.
  rewrite insert_prompt_fresh;
    [|apply check_complexity_text | exact Hfresh].
  unfold Storage.getPromptById. cbn. split; [|split].
  - eexists. rewrite lookup_insert_eq. repeat split.
  - intros other Hother. apply lookup_insert_ne. congruence.
  - reflexivity.
Qed.

Lemma savePrompt_then_getPromptById_witness :
  exists row, Storage.getPromptById "id-1" db_one_prompt = Some row
              /\ Storage.row_content row = "fix this".
Proof.
  destruct (savePrompt_then_getPromptById
              "id-1" 0 (new_prompt (Some "fix this")) "fix this"
              Storage.initialize) as ((row & Hget & _ & Htext & _) & _).
  - reflexivity.
  - reflexivity.
  - exists row. split; [exact Hget | exact Htext].
Defined.

(** When the generated id is already the id of a prompt, [savePrompt] is
    rejected on the primary key and the database is as before. *)
Theorem savePrompt_taken_id_rejected
  (id : string) (now : Z) (prompt : Storage.PromptInput) (text : string)
  (db : Storage.Database) :
  is_Some (Storage.prompts db !! id) ->
  Storage.content prompt = Some text ->
  Storage.savePrompt id now prompt db
  = (Storage.Rejected (Storage.SqliteError Storage.SQLITE_CONSTRAINT_PRIMARYKEY),
     db).
Proof.
  intros Htaken Htext.
  unfold Storage.savePrompt, Storage.run_insert. rewrite Htext.
  rewrite insert_prompt_taken;
    [reflexivity | apply check_complexity_text | exact Htaken].
Qed.

Lemma savePrompt_taken_id_rejected_witness :
  Storage.savePrompt "id-1" 9 (new_prompt (Some "again")) db_one_prompt
  = (Storage.Rejected (Storage.SqliteError Storage.SQLITE_CONSTRAINT_PRIMARYKEY),
     db_one_prompt).
Proof.
  apply (savePrompt_taken_id_rejected "id-1" 9 (new_prompt (Some "again")) "again").
  - vm_compute. eexists. reflexivity.
  - reflexivity.
Defined.

(** On an id that a prompt has, with one of the three complexity texts,
    [updatePromptAnalysis] resolves; the row read back holds the three
    analysis values and keeps its other columns; the other rows and the
    responses are as before. *)
Theorem updatePromptAnalysis_sets_analysis
  (promptId : string) (qualityScore : Q) (complexity techniqueUsed : string)
  (db : Storage.Database) (row : Storage.PromptRow) :
  Storage.prompts db !! promptId = Some row ->
  Storage.check_complexity (Some complexity) = true ->
  let result :=
    Storage.updatePromptAnalysis promptId qualityScore complexity techniqueUsed db in
  fst result = Storage.Resolved tt
  /\ (exists row', Storage.getPromptById promptId (snd result) = Some row'
                   /\ Storage.row_quality_score row' = Some qualityScore
                   /\ Storage.row_complexity row' = Some complexity
                   /\ Storage.row_technique_used row' = Some techniqueUsed
                   /\ Storage.row_id row' = Storage.row_id row
                   /\ Storage.row_content row' = Storage.row_content row
                   /\ Storage.row_timestamp row' = Storage.row_timestamp row
                   /\ Storage.row_context row' = Storage.row_context row
                   /\ Storage.row_conversation_id row'
                      = Storage.row_conversation_id row
                   /\ Storage.row_metadata row' = Storage.row_metadata row)
  /\ (forall other, other <> promptId ->
        Storage.getPromptById other (snd result)
        = Storage.getPromptById other db)
  /\ Storage.responses (snd result) = Storage.responses db.
Proof.
  intros Hrow Hcheck. cbv zeta. unfold Storage.updatePromptAnalysis.
  rewrite Hrow, Hcheck. unfold Storage.getPromptById. cbn.
  split; [reflexivity|]. split; [|split].
  - eexists. rewrite lookup_insert_eq. repeat split.
  - intros other Hother. apply lookup_insert_ne. congruence.
  - reflexivity.
Qed.

Lemma updatePromptAnalysis_sets_analysis_witness :
  exists row',
    Storage.getPromptById "id-1"
      (snd (Storage.updatePromptAnalysis "id-1" (61 # 10) "simple" "Zero-Shot"
              db_one_prompt)) = Some row'
    /\ Storage.row_quality_score row' = Some (61 # 10)
    /\ Storage.row_content row' = "fix this".
Proof.
  destruct (Storage.prompts db_one_prompt !! "id-1") as [row|] eqn:Hrow;
    [|vm_compute in Hrow; discriminate Hrow].
  destruct (updatePromptAnalysis_sets_analysis
              "id-1" (61 # 10) "simple" "Zero-Shot" db_one_prompt row Hrow)
    as (_ & (row' & Hget & Hq & _ & _ & _ & Hcontent & _) & _).
  - reflexivity.
  - exists row'. split; [exact Hget|]. split; [exact Hq|].
    rewrite Hcontent. vm_compute in Hrow. injection Hrow as <-. reflexivity.
Defined.

(** On an id that a prompt has, a complexity text that is none of
    [simple], [moderate] and [complex] makes [updatePromptAnalysis] fail on
    the column check, and the database is as before. *)
Theorem updatePromptAnalysis_other_complexity_rejected
  (promptId : string) (qualityScore : Q) (complexity techniqueUsed : string)
  (db : Storage.Database) :
  is_Some (Storage.prompts db !! promptId) ->
  complexity <> "simple" -> complexity <> "moderate" -> complexity <> "complex" ->
  Storage.updatePromptAnalysis promptId qualityScore complexity techniqueUsed db
  = (Storage.Rejected (Storage.SqliteError Storage.SQLITE_CONSTRAINT_CHECK), db).
Proof.
  intros [row Hrow] Hs Hm Hc. unfold Storage.updatePromptAnalysis.
  rewrite Hrow. unfold Storage.check_complexity.
  apply String.eqb_neq in Hs, Hm, Hc. rewrite Hs, Hm, Hc. reflexivity.
Qed.

Lemma updatePromptAnalysis_other_complexity_rejected_witness :
  Storage.updatePromptAnalysis "id-1" 5 "Simple" "Zero-Shot" db_one_prompt
  = (Storage.Rejected (Storage.SqliteError Storage.SQLITE_CONSTRAINT_CHECK),
     db_one_prompt).
Proof.
  apply updatePromptAnalysis_other_complexity_rejected.
  - vm_compute. eexists. reflexivity.
  - discriminate.
  - discriminate.
  - discriminate.
Defined.

Lemma insert_response_stored (row : Storage.ResponseRow) (db : Storage.Database) :
  Storage.check_user_rating (Storage.resp_user_rating row) = true ->
  Storage.responses db !! Storage.resp_id row = None ->
  is_Some (Storage.prompts db !! Storage.resp_prompt_id row) ->
  Storage.insert_response row db
  = inr {| Storage.foreign_keys := Storage.foreign_keys db;
           Storage.prompts := Storage.prompts db;
           Storage.responses :=
             <[Storage.resp_id row := row]> (Storage.responses db) |}.
Proof.
  intros Hcheck Hfresh Hprompt. unfold Storage.insert_response.
  rewrite Hcheck, (lookup_None_not_is_Some _ _ Hfresh),
    (bool_decide_eq_true_2 _ Hprompt).
  cbn [negb andb]. rewrite andb_false_r. reflexivity.
Qed.

(** A response to a prompt that is in the table, under a new id and with a
    rating that is absent or from 1 to 5, is saved: [saveResponse] resolves
    with the id, the row read back names the prompt, and the prompts and
    the other responses are as before. *)
Theorem saveResponse_stores_answer
  (id : string) (now : Z) (response : Storage.ResponseInput)
  (db : Storage.Database) :
  is_Some (Storage.prompts db !! Storage.promptId response) ->
  Storage.responses db !! id = None ->
  rating_in_range (Storage.userRating response) ->
  let result := Storage.saveResponse id now response db in
  fst result = Storage.Resolved id
  /\ (exists row, Storage.responses (snd result) !! id = Some row
                  /\ Storage.resp_prompt_id row = Storage.promptId response
                  /\ Storage.resp_content row = Storage.response_content response
                  /\ Storage.resp_timestamp row = now)
  /\ (forall other, other <> id ->
        Storage.responses (snd result) !! other = Storage.responses db !! other)
  /\ Storage.prompts (snd result) = Storage.prompts db.
Proof.
  intros Hprompt Hfresh Hrating. cbv zeta.
  unfold Storage.saveResponse, Storage.run_insert.
  rewrite insert_response_stored;
    [|apply rating_in_range_passes_check, Hrating | exact Hfresh | exact Hprompt].
  cbn. split; [reflexivity|]. split; [|split].
  - eexists. rewrite lookup_insert_eq. repeat split.
  - intros other Hother. apply lookup_insert_ne. congruence.
  - reflexivity.
Qed.

Lemma saveResponse_stores_answer_witness :
  fst (Storage.saveResponse "r-1" 3 (answer_rated (Some 4%Q)) db_one_prompt)
  = Storage.Resolved "r-1".
Proof.
  apply (saveResponse_stores_answer "r-1" 3 (answer_rated (Some 4%Q)) db_one_prompt).
  - vm_compute. eexists. reflexivity.
  - reflexivity.
  - cbn. split; unfold Qle; simpl; lia.
Defined.

(** The rating goes through [|| null] before the column check. A rating of
    0 is stored as [NULL] and the response is saved; a rating that is not 0
    and not from 1 to 5 fails the check and nothing is saved. *)
Theorem saveResponse_rating_zero_and_out_of_range
  (id : string) (now : Z) (response : Storage.ResponseInput) (rating : Q)
  (db : Storage.Database) :
  is_Some (Storage.prompts db !! Storage.promptId response) ->
  Storage.responses db !! id = None ->
  Storage.userRating response = Some rating ->
  let result := Storage.saveResponse id now response db in
  ((rating == 0)%Q ->
   fst result = Storage.Resolved id
   /\ exists row, Storage.responses (snd result) !! id = Some row
                  /\ Storage.resp_user_rating row = None)
  /\ (~ (rating == 0)%Q -> (rating < 1)%Q \/ (5 < rating)%Q ->
      result
      = (Storage.Rejected (Storage.SqliteError Storage.SQLITE_CONSTRAINT_CHECK),
         db)).
Proof.
  intros Hprompt Hfresh Hrating. cbv zeta.
  assert (Hrow : Storage.number_or_null (Storage.userRating response)
                 = if Qeq_bool rating 0 then None else Some rating)
    by (rewrite Hrating; reflexivity).
  unfold Storage.saveResponse, Storage.run_insert. rewrite Hrow. split.
  - intros Hzero. apply Qeq_bool_iff in Hzero. rewrite Hzero.
    rewrite insert_response_stored;
      [|reflexivity | exact Hfresh | exact Hprompt].
    cbn. split; [reflexivity|]. eexists. rewrite lookup_insert_eq.
    split; reflexivity.
  - intros Hnonzero Hout.
    destruct (Qeq_bool rating 0) eqn:E;
      [apply Qeq_bool_iff in E; contradiction|].
    unfold Storage.insert_response.
    cbn [Storage.resp_user_rating Storage.check_user_rating].
    replace (Qle_bool 1 rating && Qle_bool rating 5) with false; [reflexivity|].
    symmetry. apply andb_false_iff. destruct Hout as [Hlow | Hhigh].
    + left. destruct (Qle_bool 1 rating) eqn:E1; [|reflexivity].
      apply Qle_bool_iff in E1. exfalso. lra.
    + right. destruct (Qle_bool rating 5) eqn:E5; [|reflexivity].
      apply Qle_bool_iff in E5. exfalso. lra.
Qed.

Lemma saveResponse_rating_zero_and_out_of_range_witness :
  (exists row,
     Storage.responses
       (snd (Storage.saveResponse "r-1" 3 (answer_rated (Some 0%Q)) db_one_prompt))
       !! "r-1" = Some row
     /\ Storage.resp_user_rating row = None)
  /\ Storage.saveResponse "r-2" 3 (answer_rated (Some 7%Q)) db_one_prompt
     = (Storage.Rejected (Storage.SqliteError Storage.SQLITE_CONSTRAINT_CHECK),
        db_one_prompt).
Proof.
  split.
  - destruct (saveResponse_rating_zero_and_out_of_range
                "r-1" 3 (answer_rated (Some 0%Q)) 0%Q db_one_prompt)
      as [Hzero _].
    + vm_compute. eexists. reflexivity.
    + reflexivity.
    + reflexivity.
    + apply Hzero. reflexivity.
  - destruct (saveResponse_rating_zero_and_out_of_range
                "r-2" 3 (answer_rated (Some 7%Q)) 7%Q db_one_prompt)
      as [_ Hout].
    + vm_compute. eexists. reflexivity.
    + reflexivity.
    + reflexivity.
    + apply Hout; [intros H; discriminate H | right; reflexivity].
Defined.

(** With foreign keys enforced, the three writing methods keep the
    responses tied to prompts: if every response row names a prompt of the
    table before the call, so it does after it, whether the call resolves
    or is rejected. The new database has this property. *)
Theorem referential_integrity_kept (db : Storage.Database) :
  Storage.foreign_keys db = true ->
  referential_integrity db ->
  (forall id now prompt,
      referential_integrity (snd (Storage.savePrompt id now prompt db)))
  /\ (forall id now response,
        referential_integrity (snd (Storage.saveResponse id now response db)))
  /\ (forall promptId qualityScore complexity techniqueUsed,
        referential_integrity
          (snd (Storage.updatePromptAnalysis
                  promptId qualityScore complexity techniqueUsed db))).
Proof.
  intros Hfk Hri. split; [|split].
  - intros id now prompt.
    unfold Storage.savePrompt, Storage.run_insert, Storage.insert_prompt.
    destruct (Storage.content prompt); [|exact Hri].
    destruct (negb _); [exact Hri|]. destruct (bool_decide _); [exact Hri|].
    intros rid row Hrow. cbn in *. specialize (Hri rid row Hrow).
    rewrite lookup_insert_is_Some. destruct (decide (id = Storage.resp_prompt_id row));
      [left; assumption | right; split; assumption].
  - intros id now response.
    unfold Storage.saveResponse, Storage.run_insert, Storage.insert_response.
    cbn [Storage.resp_user_rating Storage.resp_id Storage.resp_prompt_id].
    destruct (negb _); [exact Hri|]. destruct (bool_decide _); [exact Hri|].
    rewrite Hfk. cbn [andb].
    destruct (bool_decide (is_Some (Storage.prompts db !! Storage.promptId response)))
      eqn:Hprompt; [|exact Hri].
    apply bool_decide_eq_true_1 in Hprompt.
    intros rid row. cbn. rewrite lookup_insert.
    destruct (decide (id = rid)) as [-> | Hne].
    + intros [= <-]. exact Hprompt.
    + intros Hrow. exact (Hri rid row Hrow).
  - intros promptId qualityScore complexity techniqueUsed.
    unfold Storage.updatePromptAnalysis.
    destruct (Storage.prompts db !! promptId) as [old|] eqn:Hold; [|exact Hri].
    destruct (Storage.check_complexity _); [|exact Hri].
    intros rid row Hrow. cbn in *. specialize (Hri rid row Hrow).
    rewrite lookup_insert_is_Some.
    destruct (decide (promptId = Storage.resp_prompt_id row));
      [left; assumption | right; split; assumption].
Qed.

Lemma referential_integrity_kept_witness :
  referential_integrity Storage.initialize
  /\ referential_integrity
       (snd (Storage.saveResponse "r-1" 0 orphan_response Storage.initialize)).
Proof.
  assert (Hinit : referential_integrity Storage.initialize).
  { intros rid row Hrow. cbn in Hrow. rewrite lookup_empty in Hrow.
    discriminate Hrow. }
  split; [exact Hinit|].
  destruct (referential_integrity_kept Storage.initialize eq_refl Hinit)
    as (_ & Hresponse & _).
  apply Hresponse.
Defined.

End StorageFurther.

(** ** The test-prompt route *)

Section DashboardFurther.
Import Props Cases.

(** The route saves the prompt and then stores what the engine says of it.
    For every text and a new id it replies with the analysis, never with an
    error: the row read back holds the text, the engine's score, tier and
    technique; the other rows and the responses are as before. Without
    [prompt] in the body it replies with the error and stores nothing. *)
Theorem testPrompt_stores_engine_analysis
  (id : string) (now : Z) (text : string) (context conversationId : option string)
  (db : Storage.Database) :
  Storage.prompts db !! id = None ->
  let analysis := Engine.analyzePrompt text in
  let result := Dashboard.testPrompt id now (Some text) context conversationId db in
  fst result = Dashboard.Success id analysis
  /\ (exists row,
        Storage.getPromptById id (snd result) = Some row
        /\ Storage.row_content row = text
        /\ Storage.row_timestamp row = now
        /\ Storage.row_context row = Storage.string_or_null context
        /\ Storage.row_quality_score row = Some (Engine.qualityScore analysis)
        /\ Storage.row_complexity row
           = Some (Storage.complexity_text (Engine.complexity analysis))
        /\ Storage.row_technique_used row
           = Some (Engine.suggestedTechnique analysis))
  /\ (forall other, other <> id ->
        Storage.getPromptById other (snd result)
        = Storage.getPromptById other db)
  /\ Storage.responses (snd result) = Storage.responses db
  /\ Dashboard.testPrompt id now None context conversationId db
     = (Dashboard.Failed, db).
Proof.
  intros Hfresh. cbv zeta.
  unfold Dashboard.testPrompt, Storage.savePrompt, Storage.run_insert.
  cbn [Storage.content].
  rewrite insert_prompt_fresh; [|reflexivity | exact Hfresh].
  unfold Storage.updatePromptAnalysis.
  cbn [Storage.prompts Storage.row_id]. rewrite lookup_insert_eq.
  replace (Storage.check_complexity
             (Some (Storage.complexity_text
                      (Engine.complexity (Engine.analyzePrompt text)))))
    with true
    by (destruct (Engine.complexity (Engine.analyzePrompt text)); reflexivity).
  unfold Storage.getPromptById. cbn.
  split; [reflexivity|]. split; [|split; [|split; reflexivity]].
  - eexists. rewrite lookup_insert_eq. repeat split.
  - intros other Hother. rewrite !lookup_insert_ne by congruence. reflexivity.
Qed.

Lemma testPrompt_stores_engine_analysis_witness :
  fst (Dashboard.testPrompt "id-1" 0 (Some "fix this") None None
         Storage.initialize)
  = Dashboard.Success "id-1" (Engine.analyzePrompt "fix this").
Proof.
  apply (testPrompt_stores_engine_analysis
           "id-1" 0 "fix this" None None Storage.initialize).
  reflexivity.
Defined.

End DashboardFurther.


(** ** Further properties of the quality-trend detector *)

Section InsightsFurther.
Import JsNumber Props Cases.

Lemma In_firstn {A : Type} (n : nat) (l : list A) (x : A) :
  In x (firstn n l) -> In x l.
Proof.
  revert l. induction n as [|n IH]; intros [|a l]; simpl; try tauto.
  intros [<- | H]; [left; reflexivity | right; exact (IH l H)].
Qed.

Lemma In_skipn {A : Type} (n : nat) (l : list A) (x : A) :
  In x (skipn n l) -> In x l.
Proof.
  revert l. induction n as [|n IH]; intros [|a l]; simpl; try tauto.
  intros H. right. exact (IH l H).
Qed.

Lemma In_slice {A : Type} (from to : nat) (l : list A) (x : A) :
  In x (Insights.slice from to l) -> In x l.
Proof. unfold Insights.slice. intros H. eapply In_skipn, In_firstn, H. Qed.

Lemma length_slice {A : Type} (from to : nat) (l : list A) :
  length (Insights.slice from to l) <= to - from.
Proof.
  unfold Insights.slice. generalize (skipn from l) as rest.
  induction (to - from) as [|n IH]; intros [|a rest]; simpl; try lia.
  specialize (IH rest). lia.
Qed.

Lemma filter_idempotent {A : Type} (f : A -> bool) (l : list A) :
  List.filter f (List.filter f l) = List.filter f l.
Proof. exact (filter_idempotent_skipn f 0 l). Qed.

Lemma hasQualityScore_null_as_zero (p : Insights.PromptData) :
  Insights.hasQualityScore (null_as_zero p) = Insights.hasQualityScore p.
Proof.
  unfold Insights.hasQualityScore, null_as_zero. cbn [Insights.qualityScore].
  destruct (Insights.qualityScore p); reflexivity.
Qed.

Lemma filter_null_as_zero (prompts : list Insights.PromptData) :
  List.filter Insights.hasQualityScore (map null_as_zero prompts)
  = map null_as_zero (List.filter Insights.hasQualityScore prompts).
Proof.
  induction prompts as [|p prompts IH]; [reflexivity|].
  cbn [map List.filter]. rewrite hasQualityScore_null_as_zero.
  destruct (Insights.hasQualityScore p); cbn [map]; rewrite IH; reflexivity.
Qed.

Lemma counted_scores_null_as_zero (prompts : list Insights.PromptData) :
  counted_scores (map null_as_zero prompts) = counted_scores prompts.
Proof.
  induction prompts as [|p prompts IH]; [reflexivity|].
  cbn [map counted_scores]. unfold null_as_zero at 1.
  cbn [Insights.qualityScore].
  destruct (Insights.qualityScore p); rewrite IH; reflexivity.
Qed.

Lemma counted_scores_filter (prompts : list Insights.PromptData) :
  counted_scores (List.filter Insights.hasQualityScore prompts)
  = counted_scores prompts.
Proof. exact (counted_scores_skipn 0 prompts). Qed.

Lemma counted_ids_filter (prompts : list Insights.PromptData) :
  map Insights.id (List.filter Insights.hasQualityScore prompts)
  = counted_ids prompts.
Proof.
  induction prompts as [|p prompts IH]; [reflexivity|].
  cbn [List.filter counted_ids]. unfold Insights.hasQualityScore at 1.
  destruct (Insights.qualityScore p); cbn [map]; rewrite ?IH; reflexivity.
Qed.

Lemma firstn_10_ids (prompts : list Insights.PromptData) :
  map Insights.id
    (Insights.slice 0 10 (List.filter Insights.hasQualityScore prompts))
  = firstn 10 (counted_ids prompts).
Proof.
  unfold Insights.slice. change (10 - 0) with 10.
  rewrite skipn_O, <- firstn_map, counted_ids_filter. reflexivity.
Qed.

Lemma counted_ids_null_as_zero (prompts : list Insights.PromptData) :
  counted_ids (map null_as_zero prompts) = counted_ids prompts.
Proof.
  induction prompts as [|p prompts IH]; [reflexivity|].
  cbn [map counted_ids].
  change (Insights.id (null_as_zero p)) with (Insights.id p).
  change (Insights.qualityScore (null_as_zero p))
    with (match Insights.qualityScore p with
          | JsValue.null => JsValue.value JsDouble.zero
          | score => score
          end).
  destruct (Insights.qualityScore p); rewrite IH; reflexivity.
Qed.

Lemma counted_ids_counted (prompts : list Insights.PromptData) :
  counted_ids (List.filter Insights.hasQualityScore prompts)
  = counted_ids prompts.
Proof.
  rewrite <- !counted_ids_filter, filter_idempotent. reflexivity.
Qed.

(** The detector reads its input through the counted scores and the
    counted ids only. *)
Lemma analyzeQualityTrends_ext (xs ys : list Insights.PromptData) :
  counted_scores xs = counted_scores ys ->
  counted_ids xs = counted_ids ys ->
  Insights.analyzeQualityTrends xs = Insights.analyzeQualityTrends ys.
Proof.
  intros Hscores Hids. unfold Insights.analyzeQualityTrends.
  rewrite !recentScore_double_mean, !olderScore_double_mean, !length_counted.
  rewrite !firstn_10_ids, Hscores, Hids. reflexivity.
Qed.

(** Records without a score. A record whose quality score is [undefined]
    has no part in the quality trend, and a record whose quality score is
    [null] has the part of a record scored 0: the detector returns the
    same on the history and on the history without the former and with 0
    for the [null] of the latter. So nine prompts scored 7, which alone
    give no insight, give a [quality_improvement] together with one
    prompt that was stored without a score. *)
Theorem analyzeQualityTrends_unscored_records
  (prompts : list Insights.PromptData) :
  Insights.analyzeQualityTrends prompts
  = Insights.analyzeQualityTrends
      (map null_as_zero
         (List.filter (fun p => negb (score_is_undefined p)) prompts))
  /\ Insights.analyzeQualityTrends nine_scored = []
  /\ emits "quality_improvement" Insights.info
       (Insights.analyzeQualityTrends (nine_scored ++ [unscored_row])).
Proof.
  split; [|split].
  - assert (Hfilter :
              List.filter (fun p => negb (score_is_undefined p)) prompts
              = List.filter Insights.hasQualityScore prompts).
    { apply filter_ext. intros p.
      unfold score_is_undefined, Insights.hasQualityScore.
      destruct (Insights.qualityScore p); reflexivity. }
    rewrite Hfilter. apply analyzeQualityTrends_ext.
    + rewrite counted_scores_null_as_zero, counted_scores_filter. reflexivity.
    + rewrite counted_ids_null_as_zero, counted_ids_counted. reflexivity.
  - vm_compute. reflexivity.
  - eexists. split; [|split].
    + vm_compute. left. reflexivity.
    + reflexivity.
    + reflexivity.
Qed.

(** What a quality-trend insight carries: it is not acknowledged; its
    evidence is the double-precision means of the two cohorts and the
    number of counted records, where a record counts when its quality
    score is not [undefined] and a [null] score counts as 0; at least 10
    records are counted; a decline names the first 10 of them, and an
    improvement names none. *)
Theorem quality_insight_content
  (prompts : list Insights.PromptData) (i : Insights.Insight) :
  In i (Insights.analyzeQualityTrends prompts) ->
  let counted := counted_scores prompts in
  Insights.acknowledged i = false
  /\ Insights.evidence i
     = [ ("recentScore", double_mean (recent_cohort counted));
         ("olderScore", double_mean (older_cohort counted));
         ("sampleSize", JsDouble.of_nat (length counted)) ]
  /\ 10 <= length counted
  /\ match Insights.promptIds i with
     | Some ids =>
         Insights.type i = "quality_decline"
         /\ ids = firstn 10 (counted_ids prompts)
         /\ length ids = 10
     | None => Insights.type i = "quality_improvement"
     end.
Proof.
  cbv zeta. unfold Insights.analyzeQualityTrends.
  rewrite recentScore_double_mean, olderScore_double_mean, length_counted.
  rewrite firstn_10_ids.
  destruct (length (counted_scores prompts) <? 10) eqn:Hten; [intros []|].
  apply Nat.ltb_ge in Hten.
  destruct (JsDouble.ltb _ _); [|destruct (JsDouble.ltb _ _)]; cbn [app].
  - intros [<- | []].
    cbn [Insights.acknowledged Insights.evidence Insights.promptIds
         Insights.type].
    repeat split; [exact Hten|].
    rewrite length_firstn, <- counted_ids_filter, length_map, length_counted.
    lia.
  - intros [<- | []].
    cbn [Insights.acknowledged Insights.evidence Insights.promptIds
         Insights.type].
    repeat split. exact Hten.
  - intros [].
Qed.

Lemma quality_insight_content_witness :
  exists i, In i (Insights.analyzeQualityTrends history_of_decline)
            /\ Insights.acknowledged i = false
            /\ Insights.promptIds i = Some (repeat "recent" 10).
Proof.
  destruct (Insights.analyzeQualityTrends history_of_decline)
    as [|i rest] eqn:E; [vm_compute in E; discriminate E|].
  exists i. split; [left; reflexivity|].
  destruct (quality_insight_content history_of_decline i) as (Hack & _ & _ & Hids).
  - rewrite E. left. reflexivity.
  - split; [exact Hack|].
    destruct (Insights.promptIds i) as [ids|].
    + destruct Hids as (_ & -> & _). reflexivity.
    + exfalso. vm_compute in E. injection E as <- _. discriminate Hids.
Defined.

End InsightsFurther.

(** ** Properties of the other detectors *)

Section MinerFurther.
Import JsString JsNumber Props Cases.

Lemma ratio_gt (a : Z) (b : positive) (n t : nat) :
  0 < t ->
  ((a # b) < Miner.ratio n t)%Q <-> (a * Z.of_nat t < Z.pos b * Z.of_nat n)%Z.
Proof.
  intros Ht. unfold Miner.ratio, of_nat.
  destruct t as [|t]; [lia|].
  change (Z.of_nat (S t)) with (Z.pos (Pos.of_succ_nat t)).
  unfold Qlt, Qdiv, Qmult, Qinv, inject_Z. cbn [Qnum Qden].
  rewrite Pos.mul_1_l. lia.
Qed.

Lemma percent_gt (b : Z) (n t : nat) :
  0 < t ->
  (inject_Z b < Miner.percent n t)%Q
  <-> (b * Z.of_nat t < 100 * Z.of_nat n)%Z.
Proof.
  intros Ht. unfold Miner.percent, of_nat.
  destruct t as [|t]; [lia|].
  change (Z.of_nat (S t)) with (Z.pos (Pos.of_succ_nat t)).
  unfold Qlt, Qdiv, Qmult, Qinv, inject_Z. cbn [Qnum Qden].
  rewrite Pos.mul_1_l, Pos.mul_1_r. lia.
Qed.

Lemma percent_lt (b : Z) (n t : nat) :
  0 < t ->
  (Miner.percent n t < inject_Z b)%Q
  <-> (100 * Z.of_nat n < b * Z.of_nat t)%Z.
Proof.
  intros Ht. unfold Miner.percent, of_nat.
  destruct t as [|t]; [lia|].
  change (Z.of_nat (S t)) with (Z.pos (Pos.of_succ_nat t)).
  unfold Qlt, Qdiv, Qmult, Qinv, inject_Z. cbn [Qnum Qden].
  rewrite Pos.mul_1_l, Pos.mul_1_r. lia.
Qed.

(** [Qlt_bool] as a test of the comparison. *)
Lemma Qlt_bool_reflect (x y : Q) : reflect (x < y)%Q (Qlt_bool x y).
Proof.
  destruct (Qlt_bool x y) eqn:E; constructor.
  - apply Qlt_bool_iff, E.
  - apply Qlt_bool_false_iff, E.
Qed.

Lemma mined_singleton (t : string) (i : Miner.MinedInsight) :
  mined t [i] <-> Miner.type i = t.
Proof.
  unfold mined. split.
  - intros (j & [<- | []] & Ht). exact Ht.
  - intros Ht. exists i. split; [left; reflexivity | exact Ht].
Qed.

Lemma mined_nil (t : string) : ~ mined t [].
Proof. intros (j & [] & _). Qed.

Lemma mined_pair (t : string) (i j : Miner.MinedInsight) :
  mined t [i; j] <-> Miner.type i = t \/ Miner.type j = t.
Proof.
  unfold mined. split.
  - intros (k & [<- | [<- | []]] & Ht); [left | right]; exact Ht.
  - intros [Ht | Ht]; [exists i | exists j]; (split; [|exact Ht]); simpl; tauto.
Qed.

Lemma count_of_bump_same (key : string) (acc : Miner.Counters) :
  Miner.count_of key (Miner.bump key acc) = Miner.count_of key acc + 1.
Proof.
  unfold Miner.count_of. induction acc as [|[k n] acc IH]; simpl.
  - rewrite String.eqb_refl. reflexivity.
  - destruct (String.eqb k key) eqn:E; simpl; rewrite E; [reflexivity | exact IH].
Qed.

Lemma count_of_bump_other (key other : string) (acc : Miner.Counters) :
  other <> key ->
  Miner.count_of key (Miner.bump other acc) = Miner.count_of key acc.
Proof.
  intros Hne. unfold Miner.count_of.
  induction acc as [|[k n] acc IH]; simpl.
  - apply String.eqb_neq in Hne. rewrite Hne. reflexivity.
  - destruct (String.eqb k other) eqn:E; simpl.
    + apply String.eqb_eq in E. subst k.
      apply String.eqb_neq in Hne. rewrite Hne. reflexivity.
    + destruct (String.eqb k key); [reflexivity | exact IH].
Qed.

(** A counter holds the number of items that were counted under its key. *)
Lemma count_of_fold_bump {A : Type} (f : A -> string) (key : string)
  (l : list A) (acc : Miner.Counters) :
  Miner.count_of key (fold_left (fun acc x => Miner.bump (f x) acc) l acc)
  = Miner.count_of key acc
    + length (List.filter (fun x => String.eqb (f x) key) l).
Proof.
  revert acc. induction l as [|x l IH]; intros acc; simpl; [lia|].
  rewrite IH. destruct (String.eqb (f x) key) eqn:E.
  - apply String.eqb_eq in E. rewrite E, count_of_bump_same. simpl. lia.
  - apply String.eqb_neq in E. rewrite (count_of_bump_other _ _ _ E). lia.
Qed.

Lemma classified_in_tier (tier : Engine.Complexity) (prompts : list Insights.PromptData) :
  length (List.filter
            (fun p => String.eqb (Miner.complexity_key p)
                                 (Storage.complexity_text tier))
            (List.filter Miner.hasComplexity prompts))
  = length (List.filter (in_tier tier) prompts).
Proof.
  induction prompts as [|p prompts IH]; [reflexivity|].
  cbn [List.filter]. destruct (Insights.complexity p) as [| |c] eqn:E.
  - replace (Miner.hasComplexity p) with false
      by (unfold Miner.hasComplexity; rewrite E; reflexivity).
    replace (in_tier tier p) with false
      by (unfold in_tier; rewrite E; reflexivity).
    exact IH.
  - replace (Miner.hasComplexity p) with true
      by (unfold Miner.hasComplexity; rewrite E; reflexivity).
    cbn [List.filter].
    replace (String.eqb (Miner.complexity_key p) (Storage.complexity_text tier))
      with false
      by (unfold Miner.complexity_key; rewrite E; destruct tier; reflexivity).
    replace (in_tier tier p) with false
      by (unfold in_tier; rewrite E; reflexivity).
    exact IH.
  - replace (Miner.hasComplexity p) with true
      by (unfold Miner.hasComplexity; rewrite E; reflexivity).
    cbn [List.filter].
    replace (String.eqb (Miner.complexity_key p) (Storage.complexity_text tier))
      with (in_tier tier p)
      by (unfold in_tier, Miner.complexity_key; rewrite E;
          destruct c, tier; reflexivity).
    destruct (in_tier tier p); cbn [length]; rewrite IH; reflexivity.
Qed.

Lemma simple_and_complex_within_classified (prompts : list Insights.PromptData) :
  length (List.filter (in_tier Engine.simple) prompts)
  + length (List.filter (in_tier Engine.complex) prompts)
  <= length (List.filter Miner.hasComplexity prompts).
Proof.
  induction prompts as [|p prompts IH]; [simpl; lia|].
  cbn [List.filter].
  destruct (Insights.complexity p) as [| |c] eqn:E.
  - replace (Miner.hasComplexity p) with false
      by (unfold Miner.hasComplexity; rewrite E; reflexivity).
    unfold in_tier in *. rewrite E. exact IH.
  - replace (Miner.hasComplexity p) with true
      by (unfold Miner.hasComplexity; rewrite E; reflexivity).
    unfold in_tier in *. rewrite E. cbn [length]. lia.
  - replace (Miner.hasComplexity p) with true
      by (unfold Miner.hasComplexity; rewrite E; reflexivity).
    unfold in_tier in *. rewrite E. destruct c; cbn [length]; lia.
Qed.

Lemma hasComplexity_counted (prompts : list Insights.PromptData) :
  List.filter (fun p => negb (complexity_is_undefined p)) prompts
  = List.filter Miner.hasComplexity prompts.
Proof.
  apply filter_ext. intros p.
  unfold complexity_is_undefined, Miner.hasComplexity.
  destruct (Insights.complexity p); reflexivity.
Qed.

(** The complexity detector counts the prompts whose complexity is not
    [undefined]; a prompt whose complexity is [null], as it is stored
    before its analysis, is counted but is in no tier. The detector is
    silent under 20 counted prompts. From 20 on it suggests more detail
    exactly when more than 80 in 100 of the counted prompts are simple,
    warns exactly when more than 60 in 100 are complex, and never does
    both. *)
Theorem analyzeComplexityPatterns_thresholds
  (prompts : list Insights.PromptData) :
  let total :=
    length (List.filter (fun p => negb (complexity_is_undefined p)) prompts) in
  let simples := length (List.filter (in_tier Engine.simple) prompts) in
  let complexes := length (List.filter (in_tier Engine.complex) prompts) in
  let out := Miner.analyzeComplexityPatterns prompts in
  if total <? 20 then out = []
  else
    (mined "complexity_suggestion" out <-> 80 * total < 100 * simples)
    /\ (mined "complexity_warning" out <-> 60 * total < 100 * complexes)
    /\ length out <= 1.
Proof.
  cbv zeta. rewrite hasComplexity_counted.
  unfold Miner.analyzeComplexityPatterns.
  destruct (Nat.ltb_spec (length (List.filter Miner.hasComplexity prompts)) 20)
    as [|Htotal]; [reflexivity|].
  rewrite !count_of_fold_bump.
  pose proof (classified_in_tier Engine.simple prompts) as Hsimple.
  pose proof (classified_in_tier Engine.complex prompts) as Hcomplex.
  cbn [Storage.complexity_text] in Hsimple, Hcomplex.
  rewrite Hsimple, Hcomplex. cbn [Miner.count_of find Nat.add].
  clear Hsimple Hcomplex.
  pose proof (simple_and_complex_within_classified prompts) as Hsum.
  set (total := length (List.filter Miner.hasComplexity prompts)) in *.
  set (simples := length (List.filter (in_tier Engine.simple) prompts)) in *.
  set (complexes := length (List.filter (in_tier Engine.complex) prompts)) in *.
  pose proof (percent_gt 80 simples total ltac:(lia)) as Hs.
  pose proof (percent_gt 60 complexes total ltac:(lia)) as Hc.
  change (inject_Z 80) with 80%Q in Hs. change (inject_Z 60) with 60%Q in Hc.
  destruct (Qlt_bool_reflect 80 (Miner.percent simples total)) as [Es | Es];
    destruct (Qlt_bool_reflect 60 (Miner.percent complexes total)) as [Ec | Ec];
    cbn [app].
  - exfalso. apply Hs in Es. apply Hc in Ec. lia.
  - rewrite !mined_singleton. cbn [Miner.type]. split; [|split].
    + split; [intros _; apply Hs in Es; lia | reflexivity].
    + split; [intros E; discriminate E | intros H; exfalso; apply Ec, Hc; lia].
    + simpl; lia.
  - rewrite !mined_singleton. cbn [Miner.type]. split; [|split].
    + split; [intros E; discriminate E | intros H; exfalso; apply Es, Hs; lia].
    + split; [intros _; apply Hc in Ec; lia | reflexivity].
    + simpl; lia.
  - split; [|split].
    + split; [intros H; destruct (mined_nil _ H)
             | intros H; exfalso; apply Es, Hs; lia].
    + split; [intros H; destruct (mined_nil _ H)
             | intros H; exfalso; apply Ec, Hc; lia].
    + simpl; lia.
Qed.

Lemma analyzeComplexityPatterns_thresholds_witness :
  length seventeen_simple_three_unclassified = 20
  /\ mined "complexity_suggestion"
       (Miner.analyzeComplexityPatterns seventeen_simple_three_unclassified).
Proof.
  split; [reflexivity|].
  pose proof (analyzeComplexityPatterns_thresholds
                seventeen_simple_three_unclassified) as H.
  cbv zeta in H.
  replace (length
             (List.filter (fun p => negb (complexity_is_undefined p))
                seventeen_simple_three_unclassified) <? 20)
    with false in H by (vm_compute; reflexivity).
  destruct H as (Hsuggest & _). apply Hsuggest. vm_compute. lia.
Defined.

(** A text with one of the engine's context indicators has one of the
    miner's: the miner's list is the engine's with three more entries. *)
Theorem detectContext_implies_hasContextIndicators (content : string) :
  Engine.detectContext content = true ->
  Miner.hasContextIndicators content = true.
Proof.
  unfold Engine.detectContext, Miner.hasContextIndicators, Engine.some_included.
  change Miner.contextIndicators
    with (Engine.contextIndicators ++ ["i am"; "i have"; "my project"]).
  rewrite existsb_app. intros ->. reflexivity.
Qed.

Lemma detectContext_implies_hasContextIndicators_witness :
  Miner.hasContextIndicators "Background: none" = true.
Proof.
  apply detectContext_implies_hasContextIndicators. reflexivity.
Defined.

(** The context detector is silent under 20 prompts. From 20 on it emits
    its one suggestion exactly when fewer than 30 in 100 of the prompts have
    a context indicator. The suggestion names at most 5 prompts, each a
    prompt of the input without indicator and longer than 50 characters. *)
Theorem analyzeContextUsage_threshold (prompts : list Insights.PromptData) :
  let total := length prompts in
  let withContext :=
    length (List.filter
              (fun p => Miner.hasContextIndicators (Insights.content p))
              prompts) in
  let out := Miner.analyzeContextUsage prompts in
  if total <? 20 then out = []
  else
    (mined "context_suggestion" out <-> 100 * withContext < 30 * total)
    /\ length out <= 1
    /\ (forall i, In i out ->
          exists ids,
            Miner.promptIds i = Some ids
            /\ length ids <= 5
            /\ forall x, In x ids ->
                  exists p, In p prompts /\ Insights.id p = x
                            /\ Miner.hasContextIndicators (Insights.content p)
                               = false
                            /\ 50 < String.length (Insights.content p)).
Proof.
  cbv zeta. unfold Miner.analyzeContextUsage.
  destruct (Nat.ltb_spec (length prompts) 20) as [|Htotal]; [reflexivity|].
  set (withContext :=
         length (List.filter
                   (fun p => Miner.hasContextIndicators (Insights.content p))
                   prompts)).
  pose proof (percent_lt 30 withContext (length prompts) ltac:(lia)) as Hlt.
  change (inject_Z 30) with 30%Q in Hlt.
  destruct (Qlt_bool_reflect (Miner.percent withContext (length prompts)) 30)
    as [E | E]; cbn [app].
  - rewrite mined_singleton. cbn [Miner.type]. split; [|split].
    + split; [intros _; apply Hlt in E; lia | reflexivity].
    + simpl; lia.
    + intros i [<- | []]. cbn [Miner.promptIds]. eexists.
      split; [reflexivity|]. split.
      * rewrite length_map. apply (length_slice 0 5).
      * intros x Hx. apply in_map_iff in Hx. destruct Hx as (p & <- & Hp).
        apply In_slice, filter_In in Hp. destruct Hp as [Hp Hlacks].
        unfold Miner.lacksContext in Hlacks.
        apply andb_true_iff in Hlacks. destruct Hlacks as [Hno Hlong].
        exists p. split; [exact Hp|]. split; [reflexivity|]. split.
        -- apply negb_true_iff, Hno.
        -- apply Nat.ltb_lt, Hlong.
  - split; [|split].
    + split; [intros H; destruct (mined_nil _ H)
             | intros H; exfalso; apply E, Hlt; lia].
    + simpl; lia.
    + intros i [].
Qed.

(** The length detector is silent under 20 prompts. From 20 on it emits
    [length_warning], with severity [suggestion], exactly when more than 3 in
    10 of the prompts are shorter than 20 characters, and [length_suggestion]
    exactly when more than 2 in 10 are longer than 1000. The warning names at
    most 5 prompts, each shorter than 20 characters. *)
Theorem analyzePromptLength_thresholds (prompts : list Insights.PromptData) :
  let total := length prompts in
  let short := length (List.filter Miner.isShort prompts) in
  let long := length (List.filter Miner.isVeryLong prompts) in
  let out := Miner.analyzePromptLength prompts in
  if total <? 20 then out = []
  else
    (mined "length_warning" out <-> 3 * total < 10 * short)
    /\ (mined "length_suggestion" out <-> 2 * total < 10 * long)
    /\ length out <= 2
    /\ (forall i, In i out ->
          match Miner.promptIds i with
          | Some ids =>
              Miner.type i = "length_warning"
              /\ Miner.severity i = Insights.suggestion
              /\ length ids <= 5
              /\ forall x, In x ids ->
                    exists p, In p prompts /\ Insights.id p = x
                              /\ String.length (Insights.content p) < 20
          | None =>
              Miner.type i = "length_suggestion"
              /\ Miner.severity i = Insights.info
          end).
Proof.
  cbv zeta. unfold Miner.analyzePromptLength.
  destruct (Nat.ltb_spec (length prompts) 20) as [|Htotal]; [reflexivity|].
  set (short := length (List.filter Miner.isShort prompts)).
  set (long := length (List.filter Miner.isVeryLong prompts)).
  pose proof (ratio_gt 3 10 short (length prompts) ltac:(lia)) as Hs.
  pose proof (ratio_gt 2 10 long (length prompts) ltac:(lia)) as Hl.
  assert (Hids : forall ids,
             ids = map Insights.id
                       (Insights.slice 0 5 (List.filter Miner.isShort prompts)) ->
             length ids <= 5
             /\ forall x, In x ids ->
                   exists p, In p prompts /\ Insights.id p = x
                             /\ String.length (Insights.content p) < 20).
  { intros ids ->. split.
    - rewrite length_map. apply (length_slice 0 5).
    - intros x Hx. apply in_map_iff in Hx. destruct Hx as (p & <- & Hp).
      apply In_slice, filter_In in Hp. destruct Hp as [Hp Hshort].
      exists p. split; [exact Hp|]. split; [reflexivity|].
      apply Nat.ltb_lt, Hshort. }
  destruct (Qlt_bool_reflect (3 # 10) (Miner.ratio short (length prompts)))
    as [Es | Es];
    destruct (Qlt_bool_reflect (2 # 10) (Miner.ratio long (length prompts)))
      as [El | El];
    cbn [app].
  - rewrite !mined_pair. cbn [Miner.type]. split; [|split; [|split]].
    + split; [intros _; apply Hs in Es; lia | left; reflexivity].
    + split; [intros _; apply Hl in El; lia | right; reflexivity].
    + simpl; lia.
    + intros i [<- | [<- | []]]; cbn [Miner.promptIds Miner.type Miner.severity].
      * split; [reflexivity|]. split; [reflexivity|]. apply Hids. reflexivity.
      * split; reflexivity.
  - rewrite !mined_singleton. cbn [Miner.type]. split; [|split; [|split]].
    + split; [intros _; apply Hs in Es; lia | reflexivity].
    + split; [intros E; discriminate E | intros H; exfalso; apply El, Hl; lia].
    + simpl; lia.
    + intros i [<- | []]; cbn [Miner.promptIds Miner.type Miner.severity].
      split; [reflexivity|]. split; [reflexivity|]. apply Hids. reflexivity.
  - rewrite !mined_singleton. cbn [Miner.type]. split; [|split; [|split]].
    + split; [intros E; discriminate E | intros H; exfalso; apply Es, Hs; lia].
    + split; [intros _; apply Hl in El; lia | reflexivity].
    + simpl; lia.
    + intros i [<- | []]; cbn [Miner.promptIds Miner.type Miner.severity].
      split; reflexivity.
  - split; [|split; [|split]].
    + split; [intros H; destruct (mined_nil _ H)
             | intros H; exfalso; apply Es, Hs; lia].
    + split; [intros H; destruct (mined_nil _ H)
             | intros H; exfalso; apply El, Hl; lia].
    + simpl; lia.
    + intros i [].
Qed.



















Lemma day_count_bump_same (day : Z) (acc : list (Z * nat)) :
  day_count day (Miner.bump_day day acc) = day_count day acc + 1.
Proof.
  unfold day_count. induction acc as [|[d n] acc IH]; simpl.
  - rewrite Z.eqb_refl. reflexivity.
  - destruct (Z.eqb_spec d day); simpl.
    + subst d. rewrite Z.eqb_refl. reflexivity.
    + destruct (Z.eqb_spec d day); [contradiction | exact IH].
Qed.

Lemma day_count_bump_other (day other : Z) (acc : list (Z * nat)) :
  other <> day ->
  day_count day (Miner.bump_day other acc) = day_count day acc.
Proof.
  intros Hne. unfold day_count. induction acc as [|[d n] acc IH]; simpl.
  - destruct (Z.eqb_spec other day); [contradiction | reflexivity].
  - destruct (Z.eqb_spec d other); simpl.
    + subst d. destruct (Z.eqb_spec other day); [contradiction | reflexivity].
    + destruct (Z.eqb_spec d day); [reflexivity | exact IH].
Qed.

Lemma bump_day_keys (day : Z) (acc : list (Z * nat)) :
  (In day (map fst acc) /\ map fst (Miner.bump_day day acc) = map fst acc)
  \/ (~ In day (map fst acc)
      /\ map fst (Miner.bump_day day acc) = map fst acc ++ [day]).
Proof.
  induction acc as [|[d n] acc IH]; simpl.
  - right. split; [tauto | reflexivity].
  - destruct (Z.eqb_spec d day) as [-> | E].
    + left. split; [tauto | reflexivity].
    + destruct IH as [[Hin Hk] | [Hout Hk]].
      * left. simpl. rewrite Hk. tauto.
      * right. simpl. rewrite Hk. split; [|reflexivity].
        intros [H | H]; [exact (E H) | exact (Hout H)].
Qed.

Lemma fold_left_add_succ (l : list nat) (a : nat) :
  fold_left (fun sum count => sum + count) l (S a)
  = S (fold_left (fun sum count => sum + count) l a).
Proof.
  revert a. induction l as [|x l IH]; intros a; simpl; [reflexivity|].
  apply IH.
Qed.

Lemma bump_day_total (day : Z) (acc : list (Z * nat)) (start : nat) :
  fold_left (fun sum count => sum + count)
            (map snd (Miner.bump_day day acc)) start
  = S (fold_left (fun sum count => sum + count) (map snd acc) start).
Proof.
  revert start. induction acc as [|[d n] acc IH]; intros start; simpl.
  - lia.
  - destruct (d =? day)%Z; simpl.
    + replace (start + (n + 1)) with (S (start + n)) by lia.
      apply fold_left_add_succ.
    + apply IH.
Qed.

Lemma In_day_count (day : Z) (n : nat) (acc : list (Z * nat)) :
  List.NoDup (map fst acc) -> In (day, n) acc -> day_count day acc = n.
Proof.
  unfold day_count. induction acc as [|[d m] acc IH]; simpl; [tauto|].
  intros Hnd [Heq | Hin].
  - injection Heq as -> ->. rewrite Z.eqb_refl. reflexivity.
  - inversion Hnd as [|? ? Hd Hrest]; subst.
    destruct (Z.eqb_spec d day) as [-> | E]; [|exact (IH Hrest Hin)].
    exfalso. apply Hd. apply in_map_iff. exists (day, n).
    split; [reflexivity | exact Hin].
Qed.

(** What [groupPromptsByDay] builds, from any counters with distinct days. *)
Lemma group_from (prompts : list Insights.PromptData) (acc : list (Z * nat)) :
  List.NoDup (map fst acc) ->
  let grouped :=
    fold_left (fun acc prompt => Miner.bump_day (Miner.dayOf prompt) acc)
              prompts acc in
  List.NoDup (map fst grouped)
  /\ (forall day, In day (map fst grouped)
                  <-> In day (map fst acc)
                      \/ exists p, In p prompts /\ Miner.dayOf p = day)
  /\ (forall day, day_count day grouped
                  = day_count day acc + length (on_day day prompts))
  /\ fold_left (fun sum count => sum + count) (map snd grouped) 0
     = fold_left (fun sum count => sum + count) (map snd acc) 0
       + length prompts.
Proof.
  revert acc. induction prompts as [|p prompts IH]; intros acc Hnd; cbv zeta.
  - simpl. split; [exact Hnd|]. split; [|split; [intros; lia | lia]].
    intros day. split; [tauto | intros [H | (p & [] & _)]; exact H].
  - cbn [fold_left].
    assert (Hnd' : List.NoDup
                     (map fst (Miner.bump_day (Miner.dayOf p) acc))).
    { destruct (bump_day_keys (Miner.dayOf p) acc) as [[_ ->] | [Hout ->]];
        [exact Hnd|].
      rewrite <- (rev_involutive (map fst acc ++ [Miner.dayOf p])).
      apply NoDup_rev. rewrite rev_app_distr. simpl. constructor.
      - rewrite <- in_rev. exact Hout.
      - apply NoDup_rev, Hnd. }
    destruct (IH _ Hnd') as (H1 & H2 & H3 & H4).
    split; [exact H1|]. split; [|split].
    + intros day. rewrite H2. split.
      * intros [Hin | (q & Hq & Hday)].
        -- destruct (bump_day_keys (Miner.dayOf p) acc)
             as [[_ Hk] | [_ Hk]]; rewrite Hk in Hin.
           ++ left. exact Hin.
           ++ apply in_app_or in Hin. destruct Hin as [Hin | [<- | []]].
              ** left. exact Hin.
              ** right. exists p. split; [left|]; reflexivity.
        -- right. exists q. split; [right; exact Hq | exact Hday].
      * intros [Hin | (q & [<- | Hq] & Hday)].
        -- left. destruct (bump_day_keys (Miner.dayOf p) acc)
             as [[_ ->] | [_ ->]]; [exact Hin | apply in_or_app; tauto].
        -- left. subst day.
           destruct (bump_day_keys (Miner.dayOf p) acc)
             as [[Hin ->] | [_ ->]];
             [exact Hin | apply in_or_app; right; left; reflexivity].
        -- right. exists q. tauto.
    + intros day. rewrite H3. unfold on_day. cbn [List.filter].
      destruct (Z.eqb_spec (Miner.dayOf p) day) as [<- | E].
      * rewrite day_count_bump_same. simpl. lia.
      * rewrite (day_count_bump_other _ _ _ E). lia.
    + rewrite H4, bump_day_total. simpl. lia.
Qed.

(** The days and the total of [groupPromptsByDay]. *)
Lemma groupPromptsByDay_counts_aux (prompts : list Insights.PromptData) :
  (forall day, In day (map fst (Miner.groupPromptsByDay prompts))
               <-> exists p, In p prompts /\ Miner.dayOf p = day)
  /\ fold_left (fun sum count => sum + count)
               (map snd (Miner.groupPromptsByDay prompts)) 0
     = length prompts.
Proof.
  unfold Miner.groupPromptsByDay.
  destruct (group_from prompts [] (List.NoDup_nil _)) as (_ & H2 & _ & H4).
  split; [|rewrite H4; reflexivity].
  intros day. rewrite H2. simpl. tauto.
Qed.

(** [groupPromptsByDay] has one counter for each day on which a prompt was
    written, and no other; a day's counter is the number of prompts of that
    day, and the counters add up to the number of prompts. *)
Theorem groupPromptsByDay_counts (prompts : list Insights.PromptData) :
  let grouped := Miner.groupPromptsByDay prompts in
  List.NoDup (map fst grouped)
  /\ (forall day, In day (map fst grouped)
                  <-> exists p, In p prompts /\ Miner.dayOf p = day)
  /\ (forall day n, In (day, n) grouped -> n = length (on_day day prompts))
  /\ fold_left (fun sum count => sum + count) (map snd grouped) 0
     = length prompts.
Proof.
  cbv zeta. unfold Miner.groupPromptsByDay.
  destruct (group_from prompts [] (List.NoDup_nil _)) as (H1 & H2 & H3 & H4).
  split; [exact H1|]. split; [|split].
  - intros day. rewrite H2. simpl. tauto.
  - intros day n Hin. rewrite <- (In_day_count day n _ H1 Hin), H3.
    reflexivity.
  - rewrite H4. reflexivity.
Qed.

(** The frequency detector is silent under 50 prompts. From 50 on it
    reports high usage exactly when the prompts are more than 50 times the
    days they were written on, and reports the common words exactly when
    [findCommonWords] finds one, then with at most 10 of them as evidence;
    the usage insight comes first. *)
Theorem analyzeFrequencyPatterns_thresholds (prompts : list Insights.PromptData) :
  let days := length (Miner.groupPromptsByDay prompts) in
  let words := Miner.findCommonWords prompts in
  let out := Miner.analyzeFrequencyPatterns prompts in
  if length prompts <? 50 then out = []
  else
    1 <= days
    /\ (mined "usage_pattern" out <-> 50 * days < length prompts)
    /\ (mined "pattern_detection" out <-> words <> [])
    /\ length out <= 2
    /\ (forall i, In i out -> Miner.type i = "pattern_detection" ->
          Miner.evidence i
          = [("commonWords", Miner.EvWords (Insights.slice 0 10 words))]
          /\ length (Insights.slice 0 10 words) <= 10).
Proof.
  cbv zeta. unfold Miner.analyzeFrequencyPatterns.
  destruct (Nat.ltb_spec (length prompts) 50) as [|Htotal]; [reflexivity|].
  destruct (groupPromptsByDay_counts_aux prompts) as (Hkeys & Hsum).
  rewrite Hsum.
  assert (Hdays : 1 <= length (Miner.groupPromptsByDay prompts)).
  { destruct prompts as [|p prompts]; [simpl in Htotal; lia|].
    assert (Hin : In (Miner.dayOf p)
                     (map fst (Miner.groupPromptsByDay (p :: prompts))))
      by (apply Hkeys; exists p; split; [left|]; reflexivity).
    rewrite <- (length_map fst).
    destruct (map fst (Miner.groupPromptsByDay (p :: prompts)));
      [destruct Hin | simpl; lia]. }
  pose proof (ratio_gt 50 1 (length prompts)
                (length (Miner.groupPromptsByDay prompts)) ltac:(lia)) as Hu.
  change (50 # 1)%Q with 50%Q in Hu.
  split; [exact Hdays|].
  destruct (Qlt_bool_reflect 50
              (Miner.ratio (length prompts)
                 (length (Miner.groupPromptsByDay prompts)))) as [Eu | Eu];
    destruct (Miner.findCommonWords prompts) as [|w words] eqn:Ew;
    cbn [app length Nat.ltb Nat.leb].
  - rewrite !mined_singleton. cbn [Miner.type]. split; [|split; [|split]].
    + split; [intros _; apply Hu in Eu; lia | reflexivity].
    + split; [intros E; discriminate E | intros H; contradiction].
    + simpl; lia.
    + intros i [<- | []] E. discriminate E.
  - rewrite !mined_pair. cbn [Miner.type]. split; [|split; [|split]].
    + split; [intros _; apply Hu in Eu; lia | left; reflexivity].
    + split; [intros _; discriminate | right; reflexivity].
    + simpl; lia.
    + intros i [<- | [<- | []]] E; [discriminate E|].
      split; [reflexivity | apply (length_slice 0 10)].
  - split; [|split; [|split]].
    + split; [intros H; destruct (mined_nil _ H)
             | intros H; exfalso; apply Eu, Hu; lia].
    + split; [intros H; destruct (mined_nil _ H) | intros H; contradiction].
    + simpl; lia.
    + intros i [].
  - rewrite !mined_singleton. cbn [Miner.type]. split; [|split; [|split]].
    + split; [intros E; discriminate E | intros H; exfalso; apply Eu, Hu; lia].
    + split; [intros _; discriminate | reflexivity].
    + simpl; lia.
    + intros i [<- | []] _.
      split; [reflexivity | apply (length_slice 0 10)].
Qed.

End MinerFurther.
